(** * CPSO doctor registry scraper: postal-code refinement, fetch and output

    A shallow embedding of three scripts of the repository:
    - [code/create-postal-code-permutations.py]  (module [Permutations])
    - [code/create-output.py]                    (module [Output])
    - [code/scrape-cpso.py]                      (module [Scrape])
    The fourth, [code/scrape-postal-codes.py], scrapes the seed keys from
    Wikipedia and is not part of the refinement cycle.

    Python [str] is Rocq's [string] (code points below 256), Python lists
    are lists, Python dicts are association lists in insertion order, and
    the raw store (one JSON file per key) is a finite map from file names to
    contents.  The registry is a [world]: what each [session.get] and each
    [session.post] of the run meets, in order. *)

From Stdlib Require Import ZArith Ascii String List Lia DecimalString.
From stdpp Require Import base tactics option list gmap strings.

#[local] Set Warnings "-clear-no-such-hyp".

Open Scope Z_scope.
Open Scope nat_scope.
Open Scope list_scope.

(** ** Python strings *)

Module Str.

Fixpoint chars (s : string) : list ascii :=
  match s with
  | EmptyString => []
  | String c r => c :: chars r
  end.

Fixpoint of_chars (l : list ascii) : string :=
  match l with
  | [] => EmptyString
  | c :: r => String c (of_chars r)
  end.

(** [c in "0123456789"]; below code point 256 this is also the class the
    regular expression [\d] matches on a [str] pattern. *)
Definition is_digit (c : ascii) : bool :=
  let n := nat_of_ascii c in (48 <=? n) && (n <=? 57).

(** [s.replace(c, '')] for a one-character [c]: every occurrence goes. *)
Fixpoint remove_char (c : ascii) (s : string) : string :=
  match s with
  | EmptyString => EmptyString
  | String a r =>
      if Ascii.eqb a c then remove_char c r else String a (remove_char c r)
  end.

(** [re.sub(r'\D', '', s)]: keep the decimal digits, in order. *)
Fixpoint keep_digits (s : string) : string :=
  match s with
  | EmptyString => EmptyString
  | String a r =>
      if is_digit a then String a (keep_digits r) else keep_digits r
  end.

(** [sub in s] for Python strings. *)
Fixpoint contains (sub s : string) : bool :=
  String.prefix sub s ||
  match s with
  | EmptyString => false
  | String _ r => contains sub r
  end.

(** [s[a:b]] for [0 <= a <= b]. *)
Definition slice (a b : nat) (s : string) : string :=
  String.substring a (b - a) s.

(** [s[a:]]. *)
Definition slice_from (a : nat) (s : string) : string :=
  String.substring a (String.length s - a) s.

(** [str.lower] on code points below 256. *)
Definition lower_char (c : ascii) : ascii :=
  let n := nat_of_ascii c in
  if ((65 <=? n) && (n <=? 90))
     || ((192 <=? n) && (n <=? 222) && negb (n =? 215))
  then ascii_of_nat (n + 32) else c.

Fixpoint lower (s : string) : string :=
  match s with
  | EmptyString => EmptyString
  | String a r => String (lower_char a) (lower r)
  end.

End Str.

(** ** Python values

    What [json.load], [response.json()] and a pandas cell hold.  Numbers are
    the integers ([totalcount], identifiers); [VNaN] is the missing cell of a
    pandas column, the only float of the model. *)

#[warnings="-register-all"]
Inductive value : Type :=
| VNone
| VNaN
| VBool (b : bool)
| VInt (z : Z)
| VStr (s : string)
| VList (l : list value)
| VDict (d : list (string * value)).

Abbreviation pydict := (list (string * value)).

Module Py.

(** [d.get(k)]: [None] of the option when the key is absent. *)
Fixpoint dict_get (k : string) (d : pydict) : option value :=
  match d with
  | [] => None
  | (k', v) :: r => if String.eqb k' k then Some v else dict_get k r
  end.

(** [d.get(k, dflt)] *)
Definition get_default (k : string) (dflt : value) (d : pydict) : value :=
  match dict_get k d with Some v => v | None => dflt end.

(** [d[k] = v]: the binding is replaced in place, a new key goes last. *)
Fixpoint dict_set (k : string) (v : value) (d : pydict) : pydict :=
  match d with
  | [] => [(k, v)]
  | (k', v') :: r =>
      if String.eqb k' k then (k, v) :: r else (k', v') :: dict_set k v r
  end.

(** [x == n] for an integer literal [n] ([True == 1], [False == 0]). *)
Definition eq_int (x : value) (n : Z) : bool :=
  match x with
  | VInt z => (z =? n)%Z
  | VBool b => ((if b then 1 else 0) =? n)%Z
  | _ => false
  end.

(** [bool(x)] *)
Definition truthy (x : value) : bool :=
  match x with
  | VNone => false
  | VNaN => true
  | VBool b => b
  | VInt z => negb (z =? 0)%Z
  | VStr s => negb (String.eqb s "")
  | VList l => match l with [] => false | _ => true end
  | VDict d => match d with [] => false | _ => true end
  end.

(** The items a [for] loop sees; [None] is the [TypeError] of a value that
    is not iterable.  A dict yields its keys, a string its characters. *)
Definition iter_items (x : value) : option (list value) :=
  match x with
  | VList l => Some l
  | VDict d => Some (List.map (fun kv => VStr (fst kv)) d)
  | VStr s => Some (List.map (fun c => VStr (String c EmptyString)) (Str.chars s))
  | _ => None
  end.

(** Number of constructors of a value. *)
Fixpoint vsize (v : value) : nat :=
  match v with
  | VList l => S (list_sum (List.map vsize l))
  | VDict d =>
      S (list_sum (List.map (fun kv => match kv with (_, x) => vsize x end) d))
  | _ => 1
  end.

(** *** [str] and [repr] *)

Definition quote1 : ascii := "'"%char.
Definition quote2 : ascii := ascii_of_nat 34.
Definition backslash : ascii := ascii_of_nat 92.

Definition hex_digit (n : nat) : ascii :=
  nth n (Str.chars "0123456789abcdef") "0"%char.

(** One character inside [repr] of a string delimited by [quote]. *)
Definition repr_char (quote c : ascii) : string :=
  let n := nat_of_ascii c in
  if Ascii.eqb c quote || Ascii.eqb c backslash then
    String backslash (String c EmptyString)
  else if n =? 9 then String backslash "t"
  else if n =? 10 then String backslash "n"
  else if n =? 13 then String backslash "r"
  else if (n <? 32) || (n =? 127) || ((128 <=? n) && (n <=? 160)) || (n =? 173)
  then String backslash
         (String "x" (String (hex_digit (n / 16))
                             (String (hex_digit (n mod 16)) EmptyString)))
  else String c EmptyString.

Definition has_char (c : ascii) (s : string) : bool :=
  existsb (Ascii.eqb c) (Str.chars s).

(** [repr(s)]: single quotes, unless [s] holds a single quote and no
    double quote. *)
Definition repr_str (s : string) : string :=
  let quote := if has_char quote1 s && negb (has_char quote2 s)
               then quote2 else quote1 in
  String quote
    (String.concat "" (List.map (repr_char quote) (Str.chars s))
     +:+ String quote EmptyString).

(** [str(z)] of an integer. *)
Definition str_int (z : Z) : string := NilZero.string_of_int (Z.to_int z).

Fixpoint repr (v : value) : string :=
  match v with
  | VNone => "None"
  | VNaN => "nan"
  | VBool b => if b then "True" else "False"
  | VInt z => str_int z
  | VStr s => repr_str s
  | VList l => "[" +:+ String.concat ", " (List.map repr l) +:+ "]"
  | VDict d =>
      "{" +:+ String.concat ", "
                (List.map (fun kv => match kv with
                                     | (k, x) => repr_str k +:+ ": " +:+ repr x
                                     end) d)
          +:+ "}"
  end.

(** [str(v)] *)
Definition str (v : value) : string :=
  match v with
  | VStr s => s
  | _ => repr v
  end.

End Py.

(** ** create-postal-code-permutations.py: the key generator *)

Module Permutations.

(** [string.ascii_uppercase] *)
Definition ascii_uppercase : string := "ABCDEFGHIJKLMNOPQRSTUVWXYZ".

Definition excluded_letters : list ascii :=
  ["D"; "F"; "I"; "O"; "Q"; "U"]%char.

Definition in_chars (c : ascii) (l : list ascii) : bool :=
  existsb (Ascii.eqb c) l.

(** [VALID_LETTERS = [c for c in string.ascii_uppercase
                        if c not in {'D','F','I','O','Q','U'}]] *)
Definition VALID_LETTERS : list ascii :=
  List.filter (fun c => negb (in_chars c excluded_letters))
              (Str.chars ascii_uppercase).

(** [VALID_DIGITS = list("0123456789")] *)
Definition VALID_DIGITS : list ascii := Str.chars "0123456789".

Definition char1 (c : ascii) : string := String c EmptyString.

(** [all_permutations.extend([postal_code + "+" + d for d in VALID_DIGITS])]
    for every postal code, in order. *)
Definition generate_ldu1_permutations (postal_codes : list string)
  : list string :=
  flat_map (fun postal_code =>
              List.map (fun d => (postal_code +:+ "+") +:+ char1 d)
                       VALID_DIGITS)
           postal_codes.

(** [all_permutations.extend([postal_code + l for l in VALID_LETTERS])] *)
Definition generate_ldu2_permutations (postal_codes : list string)
  : list string :=
  flat_map (fun postal_code =>
              List.map (fun l => postal_code +:+ char1 l) VALID_LETTERS)
           postal_codes.

(** [all_permutations.extend([postal_code + d for d in VALID_DIGITS])] *)
Definition generate_ldu3_permutations (postal_codes : list string)
  : list string :=
  flat_map (fun postal_code =>
              List.map (fun d => postal_code +:+ char1 d) VALID_DIGITS)
           postal_codes.

(** [len(code.replace('+', ''))], the length the filter of the main block
    compares with the required input length. *)
Definition actual_length (code : string) : nat :=
  String.length (Str.remove_char "+"%char code).

(** [generate_and_save_permutations(postal_codes, level, output_dir)]:
    the file name under [output_dir] and the permutations written to it;
    [None] is the [ValueError] of an invalid level. *)
Definition generate_and_save_permutations
    (postal_codes : list string) (level : string)
  : option (string * list string) :=
  if String.eqb (Str.lower level) "ldu1" then
    Some ("FSA_LDU1.json", generate_ldu1_permutations postal_codes)
  else if String.eqb (Str.lower level) "ldu2" then
    Some ("FSA_LDU2.json", generate_ldu2_permutations postal_codes)
  else if String.eqb (Str.lower level) "ldu3" then
    Some ("FSA_LDU3.json", generate_ldu3_permutations postal_codes)
  else None.

(** *** [load_postal_codes] *)

(** [isinstance(item, dict) and item.get('totalcount') == -1] *)
Definition is_capped_item (item : value) : bool :=
  match item with
  | VDict d => Py.eq_int (Py.get_default "totalcount" VNone d) (-1)
  | _ => false
  end.

(** [item.get('postal_code')] of a dict item. *)
Definition item_postal_code (item : value) : value :=
  match item with
  | VDict d => Py.get_default "postal_code" VNone d
  | _ => VNone
  end.

(** What the name [postal_codes] is bound to inside the loop: the list
    created by [postal_codes = []], or, after [postal_codes = data], the
    list [data] itself (the same object, not a copy). *)
Inductive binding : Type :=
| Own (acc : list value)
| Aliased.

(** The [for item in data] loop of the JSON branch.  The list iterator
    reads [data[i]] until [i] reaches the current length, so items that
    [postal_codes.append] adds to [data] through the alias are visited
    too. *)
Fixpoint load_loop (fuel : nat) (data : list value) (i : nat)
    (postal_codes : binding) : option (list value) :=
  match fuel with
  | 0 => None
  | S fuel' =>
      match data !! i with
      | None =>
          Some (match postal_codes with Own acc => acc | Aliased => data end)
      | Some item =>
          if is_capped_item item then
            match postal_codes with
            | Own acc =>
                load_loop fuel' data (S i) (Own (acc ++ [item_postal_code item]))
            | Aliased =>
                load_loop fuel' (data ++ [item_postal_code item]) (S i) Aliased
            end
          else load_loop fuel' data (S i) Aliased
      end
  end.

Definition load_fuel (data : list value) : nat :=
  S (list_sum (List.map Py.vsize data)).

(** The JSON branch on a top-level list. *)
Definition load_postal_codes_json (data : list value) : option (list value) :=
  load_loop (load_fuel data) data 0 (Own []).

(** A pandas frame: its columns in order, each with its cells. *)
Definition dataframe : Type := list (string * list value).

Fixpoint column (name : string) (df : dataframe) : option (list value) :=
  match df with
  | [] => None
  | (n, cells) :: r => if String.eqb n name then Some cells else column name r
  end.

(** [df[df['totalcount'] == -1]['postal_code'].tolist()] *)
Definition select_capped (postal_code totalcount : list value) : list value :=
  List.map fst
    (List.filter (fun row => Py.eq_int (snd row) (-1))
                 (combine postal_code totalcount)).

(** The CSV branch; [None] is the [IndexError] of [df.iloc[:, 0]] on a
    frame without columns. *)
Definition load_postal_codes_csv (df : dataframe) : option (list value) :=
  match column "postal_code" df, column "totalcount" df with
  | Some pcs, Some tcs => Some (select_capped pcs tcs)
  | Some pcs, None => Some pcs
  | None, _ =>
      match df with
      | [] => None
      | (_, cells) :: _ => Some cells
      end
  end.

(** The input file, as the extension test and the parsers see it. *)
Inductive input_file : Type :=
| JsonFile (data : value)
| CsvFile (df : dataframe)
| UnreadableFile      (* [open], [json.load] or [read_csv] raises *)
| OtherFile.          (* neither [.json] nor [.csv]: [ValueError] *)

(** [load_postal_codes(input_file)]: every exception ends in
    [return []]. *)
Definition load_postal_codes (f : input_file) : value :=
  match f with
  | JsonFile (VList data) =>
      match load_postal_codes_json data with
      | Some r => VList r
      | None => VList []
      end
  | JsonFile (VDict d) =>
      (* the loop sees the keys, all strings *)
      match d with [] => VList [] | _ => VDict d end
  | JsonFile (VStr s) =>
      match s with EmptyString => VList [] | _ => VStr s end
  | JsonFile _ => VList []
  | CsvFile df =>
      match load_postal_codes_csv df with
      | Some r => VList r
      | None => VList []
      end
  | UnreadableFile => VList []
  | OtherFile => VList []
  end.

(** *** The main block *)

(** [choices=[1, 2, 3]] of the [level] argument. *)
Inductive level : Type := Level1 | Level2 | Level3.

(** [required_length_map = {1: 3, 2: 4, 3: 5}] *)
Definition required_length_map (l : level) : nat :=
  match l with Level1 => 3 | Level2 => 4 | Level3 => 5 end.

(** [level_map = {1: 'ldu1', 2: 'ldu2', 3: 'ldu3'}] *)
Definition level_map (l : level) : string :=
  match l with Level1 => "ldu1" | Level2 => "ldu2" | Level3 => "ldu3" end.

(** The filter loop; [None] is the [AttributeError] of [code.replace] on a
    value that is not a string. *)
Fixpoint filter_by_length (required_length : nat) (postal_codes : list value)
  : option (list string) :=
  match postal_codes with
  | [] => Some []
  | VStr code :: rest =>
      match filter_by_length required_length rest with
      | Some kept =>
          Some (if actual_length code =? required_length
                then code :: kept else kept)
      | None => None
      end
  | _ :: _ => None
  end.

Inductive outcome : Type :=
| Exit (status : nat)                              (* [sys.exit(status)] *)
| Raised                                           (* uncaught exception *)
| Generated (file : string) (permutations : list string).

(** The main block after [postal_codes = load_postal_codes(...)]. *)
Definition refine (l : level) (postal_codes : value) : outcome :=
  if negb (Py.truthy postal_codes) then Exit 1
  else
    match Py.iter_items postal_codes with
    | None => Raised
    | Some items =>
        match filter_by_length (required_length_map l) items with
        | None => Raised
        | Some filtered =>
            match filtered with
            | [] => Exit 1
            | _ =>
                match generate_and_save_permutations filtered (level_map l) with
                | Some (file, permutations) => Generated file permutations
                | None => Raised
                end
            end
        end
    end.

Definition main (l : level) (f : input_file) : outcome :=
  refine l (load_postal_codes f).

End Permutations.

(** ** create-output.py: summary and detail tables *)

Module Output.

(** [format_phone(number)]: [None] is Python's [None]. *)
Definition format_phone (number : value) : option string :=
  let digits := Str.keep_digits (Py.str number) in
  if String.length digits =? 10 then
    Some ("(" +:+ Str.slice 0 3 digits +:+ ") " +:+ Str.slice 3 6 digits
              +:+ "-" +:+ Str.slice_from 6 digits)
  else None.

(** The cell [Series.apply(format_phone)] stores. *)
Definition format_phone_cell (number : value) : value :=
  match format_phone number with
  | Some s => VStr s
  | None => VNone
  end.

(** A row of [summary_rows]: [postal_code] and [totalcount]. *)
Record summary_row : Type := SummaryRow {
  postal_code : value;
  totalcount : value
}.

(** One turn of the file loop on the parsed content [data] of a file.
    [data.get] on anything but a dict raises, and so does [extend] on a
    value that is not iterable; the [except] clause moves on to the next
    file, keeping what was appended before. *)
Definition read_file (acc : list summary_row * list value) (data : value)
  : list summary_row * list value :=
  match data with
  | VDict d =>
      let summary_rows :=
        fst acc ++ [SummaryRow (Py.get_default "postal_code" (VStr "unknown") d)
                               (Py.get_default "totalcount" (VInt 0) d)] in
      match Py.dict_get "results" d with
      | Some results =>
          if Py.truthy results then
            match Py.iter_items results with
            | Some items => (summary_rows, snd acc ++ items)
            | None => (summary_rows, snd acc)
            end
          else (summary_rows, snd acc)
      | None => (summary_rows, snd acc)
      end
  | _ => acc
  end.

Definition read_files (files : list value) : list summary_row * list value :=
  fold_left read_file files ([], []).

(** [(summary_df['totalcount'] == -1) &
     (summary_df['postal_code'].apply(lambda x: len(str(x)) == 7))] *)
Definition capped_mask (r : summary_row) : bool :=
  Py.eq_int (totalcount r) (-1)
  && (String.length (Py.str (postal_code r)) =? 7).

(** [summary_df_capped]; a frame built from no rows has no column, and
    [summary_df['totalcount']] raises [KeyError] ([None]). *)
Definition find_capped (summary_df : list summary_row)
  : option (list summary_row) :=
  match summary_df with
  | [] => None
  | _ => Some (List.filter capped_mask summary_df)
  end.

(** *** The detail frame *)

(** The rows of [pd.DataFrame(detail_rows)] for rows that are dicts;
    [None] when a row is not a dict. *)
Fixpoint as_records (rows : list value) : option (list pydict) :=
  match rows with
  | [] => Some []
  | VDict d :: rest =>
      match as_records rest with
      | Some ds => Some (d :: ds)
      | None => None
      end
  | _ :: _ => None
  end.

Definition has_key (k : string) (d : pydict) : bool :=
  match Py.dict_get k d with Some _ => true | None => false end.

(** ['name' in detail_df.columns]: the columns are the keys of the rows. *)
Definition in_columns (name : string) (rows : list pydict) : bool :=
  existsb (has_key name) rows.

(** The cell of a row in a column: the value of the row, [NaN] when the
    row lacks the key. *)
Definition cell (name : string) (row : pydict) : value :=
  Py.get_default name VNaN row.

(** What [drop_duplicates] compares: missing cells ([None], [NaN]) are
    taken alike, numbers compare by value ([True] is [1]), strings by
    content.  A list or a dict cannot be hashed ([None]: [TypeError]). *)
Inductive key : Type :=
| KNA
| KNum (z : Z)
| KStr (s : string).

Definition cell_key (v : value) : option key :=
  match v with
  | VNone | VNaN => Some KNA
  | VBool b => Some (KNum (if b then 1 else 0))
  | VInt z => Some (KNum z)
  | VStr s => Some (KStr s)
  | VList _ | VDict _ => None
  end.

Definition key_eqb (a b : key) : bool :=
  match a, b with
  | KNA, KNA => true
  | KNum x, KNum y => (x =? y)%Z
  | KStr x, KStr y => String.eqb x y
  | _, _ => false
  end.

Definition seen_key (k : key) (seen : list key) : bool :=
  existsb (key_eqb k) seen.

(** [drop_duplicates(subset=[name])] with the default [keep='first']. *)
Fixpoint drop_duplicates_from (name : string) (seen : list key)
    (rows : list pydict) : option (list pydict) :=
  match rows with
  | [] => Some []
  | row :: rest =>
      match cell_key (cell name row) with
      | None => None
      | Some k =>
          if seen_key k seen then drop_duplicates_from name seen rest
          else
            match drop_duplicates_from name (k :: seen) rest with
            | Some kept => Some (row :: kept)
            | None => None
            end
      end
  end.

Definition drop_duplicates (name : string) (rows : list pydict)
  : option (list pydict) :=
  drop_duplicates_from name [] rows.

(** [detail_df[name] = detail_df[name].apply(format_phone)] *)
Definition apply_format_phone (name : string) (rows : list pydict)
  : list pydict :=
  List.map (fun row => Py.dict_set name (format_phone_cell (cell name row)) row)
           rows.

(** The [else] branch that builds [detail_df] from non-empty
    [detail_rows].  The columns are those of the frame as first built:
    dropping rows removes no column. *)
Definition build_detail (detail_rows : list pydict) : option (list pydict) :=
  let deduplicated :=
    if in_columns "cpsonumber" detail_rows
    then drop_duplicates "cpsonumber" detail_rows
    else Some detail_rows in
  match deduplicated with
  | None => None
  | Some df =>
      let df1 := if in_columns "phonenumber" detail_rows
                 then apply_format_phone "phonenumber" df else df in
      let df2 := if in_columns "fax" detail_rows
                 then apply_format_phone "fax" df1 else df1 in
      Some df2
  end.

Record tables : Type := Tables {
  summary_df : list summary_row;
  summary_df_capped : list summary_row;
  detail_df : list pydict
}.

Inductive outcome : Type :=
| NoFiles                 (* [return] before any output *)
| Raised                  (* uncaught exception *)
| NotRecords              (* a detail row that is not an object: the frame
                             pandas builds from it is outside this model *)
| Saved (t : tables).     (* [summary.csv] and [details.csv] written *)

(** [process_data], on the parsed contents of the files that
    [glob.glob] found, in its order.  A file that cannot be read or parsed
    is skipped by the [except] clause like one whose content is not a
    dict. *)
Definition process_data (files : list value) : outcome :=
  match files with
  | [] => NoFiles
  | _ =>
      let '(summary_rows, detail_rows) := read_files files in
      match detail_rows with
      | [] =>
          match find_capped summary_rows with
          | Some capped => Saved (Tables summary_rows capped [])
          | None => Raised
          end
      | _ =>
          match as_records detail_rows with
          | None => NotRecords
          | Some rows =>
              match build_detail rows with
              | None => Raised
              | Some detail =>
                  match find_capped summary_rows with
                  | Some capped => Saved (Tables summary_rows capped detail)
                  | None => Raised
                  end
              end
          end
      end
  end.

End Output.


(** ** scrape-cpso.py: the rate-limited fetcher *)

Module Scrape.

(** What one [session.post] gives: a response with its status code and
    what [response.json()] does on it (the parsed value, or the message of
    the exception it raises), or the message of the exception that
    [session.post] itself raises. *)
Inductive attempt : Type :=
| Responded (status_code : Z) (json : string + value)
| Failed (message : string).

(** The registry as the run meets it: whether the n-th [session.get]
    returns, and the n-th [session.post]. *)
Record world : Type := World {
  get_ok : nat -> bool;
  post : nat -> attempt
}.

(** [time.sleep] calls: the random pause before a key, and a back-off. *)
Inductive pause : Type :=
| Jitter
| Backoff (seconds : Z).

(** The state the run threads: requests made so far, pauses taken, lines
    printed, and the raw store (path of a file to its JSON content). *)
Record state : Type := State {
  gets : nat;
  posts : nat;
  slept : list pause;
  stdout : list string;
  raw : gmap string value
}.

Definition print (line : string) (st : state) : state :=
  State (gets st) (posts st) (slept st) (stdout st ++ [line]) (raw st).

Definition sleep (p : pause) (st : state) : state :=
  State (gets st) (posts st) (slept st ++ [p]) (stdout st) (raw st).

Definition count_post (st : state) : state :=
  State (gets st) (S (posts st)) (slept st) (stdout st) (raw st).

Definition count_get (st : state) : state :=
  State (S (gets st)) (posts st) (slept st) (stdout st) (raw st).

Definition write_file (filename : string) (content : value) (st : state)
  : state :=
  State (gets st) (posts st) (slept st) (stdout st)
        (<[filename := content]> (raw st)).

Definition str_nat (n : nat) : string := Py.str_int (Z.of_nat n).

(** *** [fetch_with_backoff] *)

(** The local variables of the retry loop. *)
Record backoff : Type := BackoffState {
  retries : nat;
  delay : Z
}.

Inductive step : Type :=
| Return (result : value)
| Continue (b : backoff).

Definition control_character_marker : string :=
  "Invalid control character at: line".

(** The statements after the [try] block: sleep, double, count, print. *)
Definition back_off (max_retries : nat) (b : backoff) (st : state)
  : step * state :=
  let st1 := sleep (Backoff (delay b)) st in
  let b' := BackoffState (S (retries b)) (delay b * 2) in
  (Continue b',
   print ("Retrying... attempt " +:+ str_nat (retries b') +:+ "/"
          +:+ str_nat max_retries) st1).

(** The [except Exception as e] clause. *)
Definition on_exception (max_retries : nat) (message : string)
    (b : backoff) (st : state) : step * state :=
  let st1 := print ("Request failed: " +:+ message) st in
  if Str.contains control_character_marker message then
    (Return VNone,
     print "Skipping response with invalid control character" st1)
  else back_off max_retries b st1.

(** One turn of the [while] loop. *)
Definition attempt_once (w : world) (max_retries : nat) (b : backoff)
    (st : state) : step * state :=
  let st1 := count_post st in
  match post w (posts st) with
  | Responded status_code json =>
      if (status_code =? 200)%Z then
        match json with
        | inr payload => (Return payload, st1)
        | inl message => on_exception max_retries message b st1
        end
      else if (status_code =? 429)%Z then
        back_off max_retries b
          (print ("Rate limited. Backing off for " +:+ Py.str_int (delay b)
                  +:+ " seconds...") st1)
      else
        back_off max_retries b
          (print ("Error: Status code " +:+ Py.str_int status_code) st1)
  | Failed message => on_exception max_retries message b st1
  end.

(** [while retries < max_retries]: [remaining] is
    [max_retries - retries], the number of turns the condition still
    allows.  The result comes with the local variables at the exit. *)
Fixpoint retry_loop (w : world) (max_retries remaining : nat) (b : backoff)
    (st : state) : value * backoff * state :=
  match remaining with
  | 0 => (VNone, b, print "Max retries reached. Giving up." st)
  | S remaining' =>
      match attempt_once w max_retries b st with
      | (Return result, st') => (result, b, st')
      | (Continue b', st') => retry_loop w max_retries remaining' b' st'
      end
  end.

Definition fetch_with_backoff (w : world) (max_retries : nat)
    (initial_delay : Z) (st : state) : value * backoff * state :=
  retry_loop w max_retries max_retries (BackoffState 0 initial_delay) st.

(** *** [fetch_results_with_rate_limit] *)

(** The [if]/[elif] chain that builds [body]; [None] when no branch
    assigns it. *)
Definition request_body (postal_code doctor_type last_name : string)
  : option string :=
  let base := "cbx-includeinactive=on&postalCode=" +:+ postal_code
              +:+ "&doctorType=" +:+ doctor_type in
  let named := "cbx-includeinactive=on&lastName=" +:+ last_name
               +:+ "&postalCode=" +:+ postal_code
               +:+ "&doctorType=" +:+ doctor_type in
  let any_name := String.eqb last_name "Any" in
  if String.eqb doctor_type "Any" then Some base
  else if String.eqb doctor_type "Family+Doctor" && any_name then Some base
  else if String.eqb doctor_type "Specialist" && any_name then
    Some (base +:+ "&SpecialistType=Psychiatry")
  else if String.eqb doctor_type "Family+Doctor" && negb any_name then
    Some named
  else if String.eqb doctor_type "Specialist" && negb any_name then
    Some (named +:+ "&SpecialistType=Psychiatry")
  else None.

(** [os.path.join] of two components. *)
Definition path_join (a b : string) : string :=
  if String.prefix "/" b then b
  else if String.eqb a "" then b
  else if String.eqb (Str.slice_from (String.length a - 1) a) "/" then a +:+ b
  else a +:+ "/" +:+ b.

(** The raw file of a key. *)
Definition raw_filename (output_dir postal_code doctor_type last_name : string)
  : string :=
  path_join (path_join output_dir "raw")
            (postal_code +:+ "+" +:+ doctor_type +:+ "+" +:+ last_name
             +:+ ".json").

(** [len(x)]; [None] is the [TypeError] of a value without a length. *)
Definition py_len (x : value) : option nat :=
  match x with
  | VList l => Some (List.length l)
  | VDict d => Some (List.length d)
  | VStr s => Some (String.length s)
  | _ => None
  end.

(** [len(result.get('results', []))] *)
Definition results_len (d : pydict) : option nat :=
  py_len (Py.get_default "results" (VList []) d).

Record params : Type := Params {
  doctor_type : string;
  last_name : string;
  output_dir : string
}.

(** The body of the [for postal_code in postal_codes] loop; [None] in the
    second component is an exception that leaves the loop. *)
Definition fetch_one (w : world) (p : params) (postal_code : string)
    (all_results : list value) (st : state) : state * option (list value) :=
  let st1 := sleep Jitter st in
  let st2 :=
    print ("Fetching results for postal code=" +:+ postal_code
           +:+ "; physician type=" +:+ doctor_type p
           +:+ "; last name=" +:+ last_name p +:+ "...") st1 in
  let st3 := count_get st2 in
  if negb (get_ok w (gets st2)) then (st3, None)
  else
    match request_body postal_code (doctor_type p) (last_name p) with
    | None => (st3, None)
    | Some _ =>
        let '(result_data, _, st4) := fetch_with_backoff w 5 2 st3 in
        if Py.truthy result_data then
          match result_data with
          | VDict d =>
              let d' := Py.dict_set "postal_code" (VStr postal_code) d in
              match results_len d' with
              | None => (st4, None)
              | Some n =>
                  let st5 :=
                    print ("Retrieved " +:+ str_nat n +:+ " results for "
                           +:+ postal_code +:+ "+" +:+ doctor_type p
                           +:+ "+" +:+ last_name p) st4 in
                  let filename :=
                    raw_filename (output_dir p) postal_code
                                 (doctor_type p) (last_name p) in
                  let st6 := write_file filename (VDict d') st5 in
                  (print ("Results saved to " +:+ filename) st6,
                   Some (all_results ++ [VDict d']))
              end
          | _ => (st4, None)
          end
        else (st4, Some all_results)
    end.

Fixpoint fetch_loop (w : world) (p : params) (postal_codes : list string)
    (all_results : list value) (st : state) : state * option (list value) :=
  match postal_codes with
  | [] => (st, Some all_results)
  | postal_code :: rest =>
      match fetch_one w p postal_code all_results st with
      | (st', Some all_results') => fetch_loop w p rest all_results' st'
      | (st', None) => (st', None)
      end
  end.

Definition fetch_results_with_rate_limit (w : world) (p : params)
    (postal_codes : list string) (st : state) : state * option (list value) :=
  fetch_loop w p postal_codes [] st.

(** *** [run_simple_scrape] *)

(** [len(result.get('results', []))] of a returned result. *)
Definition result_len (result : value) : option nat :=
  match result with
  | VDict d => results_len d
  | _ => None
  end.

(** [sum(len(result.get('results', [])) for result in results)]; [None]
    is an exception raised by one of the terms. *)
Fixpoint total_doctors (results : list value) : option nat :=
  match results with
  | [] => Some 0
  | result :: rest =>
      match result_len result, total_doctors rest with
      | Some n, Some total => Some (n + total)
      | _, _ => None
      end
  end.

Definition newline : string := String (ascii_of_nat 10) EmptyString.

Definition summary_line (doctors codes : nat) : string :=
  newline +:+ "Summary: Retrieved information for " +:+ str_nat doctors
          +:+ " doctors across " +:+ str_nat codes +:+ " postal codes".

Definition run_simple_scrape (w : world) (p : params)
    (postal_codes : list string) (st : state) : state * option (list value) :=
  match fetch_results_with_rate_limit w p postal_codes st with
  | (st', Some results) =>
      match total_doctors results with
      | Some doctors =>
          (print (summary_line doctors (List.length postal_codes)) st',
           Some results)
      | None => (st', None)
      end
  | (st', None) => (st', None)
  end.

End Scrape.

(** ** scrape-cpso.py: the key file of a run *)

Module KeyFile.

(** [c.isspace()] below code point 256: what [str.strip()] removes. *)
Definition is_space (c : ascii) : bool :=
  let n := nat_of_ascii c in
  ((9 <=? n) && (n <=? 13)) || ((28 <=? n) && (n <=? 32))
  || (n =? 133) || (n =? 160).

Fixpoint lstrip (s : string) : string :=
  match s with
  | EmptyString => EmptyString
  | String c r => if is_space c then lstrip r else s
  end.

(** The characters of a string without its trailing white space. *)
Fixpoint rstrip_chars (l : list ascii) : list ascii :=
  match l with
  | [] => []
  | c :: r =>
      match rstrip_chars r with
      | [] => if is_space c then [] else [c]
      | r' => c :: r'
      end
  end.

(** [s.strip()] *)
Definition strip (s : string) : string :=
  Str.of_chars (rstrip_chars (Str.chars (lstrip s))).

(** [item['postal_code']]: [None] is the [TypeError] of an item that takes
    no string index, or the [KeyError] of a dict without the key. *)
Definition getitem (k : string) (item : value) : option value :=
  match item with
  | VDict d => Py.dict_get k d
  | _ => None
  end.

(** [[item['postal_code'] for item in data]] *)
Fixpoint comprehension (items : list value) : option (list value) :=
  match items with
  | [] => Some []
  | item :: rest =>
      match getitem "postal_code" item with
      | None => None
      | Some v =>
          match comprehension rest with
          | Some vs => Some (v :: vs)
          | None => None
          end
      end
  end.

(** The input file, as the extension test and the parsers see it; a text
    file is the lines its iterator yields. *)
Inductive input_file : Type :=
| JsonFile (data : value)
| CsvFile (df : Permutations.dataframe)
| TextFile (lines : list string)
| UnreadableFile.

(** [load_postal_codes_from_file(input_file)]: every exception ends in
    [return []]. *)
Definition load_postal_codes_from_file (f : input_file) : list value :=
  match f with
  | JsonFile (VList data) => data
  | JsonFile (VDict d) =>
      match Py.dict_get "postal_code" d with
      | Some _ =>
          match Py.iter_items (VDict d) with
          | Some items =>
              match comprehension items with
              | Some r => r
              | None => []
              end
          | None => []
          end
      | None => []
      end
  | JsonFile _ => []
  | CsvFile df =>
      match Permutations.column "postal_code" df with
      | Some cells => cells
      | None =>
          match df with
          | [] => []
          | (_, cells) :: _ => cells
          end
      end
  | TextFile lines =>
      List.map (fun line => VStr (strip line))
               (List.filter (fun line => Py.truthy (VStr (strip line))) lines)
  | UnreadableFile => []
  end.

End KeyFile.

(** ** scrape-postal-codes.py: the seed keys *)

Module Seeds.

(** [[A-Z]] of the pattern. *)
Definition is_upper (c : ascii) : bool :=
  let n := nat_of_ascii c in (65 <=? n) && (n <=? 90).

(** [pattern.match(text)] for [re.compile("[A-Z][0-9][A-Z]")]: the pattern
    is tried at the start of the text only. *)
Definition looks_like_fsa (text : string) : bool :=
  match text with
  | String a (String b (String c _)) =>
      is_upper a && Str.is_digit b && is_upper c
  | _ => false
  end.

(** [fetch_FSA], on the texts of the [<b>] tags of the page. *)
Definition fetch_FSA (b_tags : list string) : list string :=
  List.filter looks_like_fsa b_tags.

(** [fetch_forward_sortation_areas_with_delay]: a page is the texts of its
    [<b>] tags, or [None] when [requests.get] raises, which ends the
    function.  The pause before each page and the prints are left out: they
    do not change what is returned. *)
Fixpoint fetch_forward_sortation_areas_with_delay
    (pages : list (option (list string))) (all_results : list (list string))
  : option (list (list string)) :=
  match pages with
  | [] => Some all_results
  | None :: _ => None
  | Some b_tags :: rest =>
      let result_data := fetch_FSA b_tags in
      match result_data with
      | [] => fetch_forward_sortation_areas_with_delay rest all_results
      | _ =>
          fetch_forward_sortation_areas_with_delay rest
            (all_results ++ [result_data])
      end
  end.

(** [all_fsas_flat] and [total_fsas] of the main block. *)
Definition all_fsas_flat (all_fsas : list (list string)) : list string :=
  List.concat all_fsas.

Definition total_fsas (all_fsas : list (list string)) : nat :=
  list_sum (List.map (@List.length string) all_fsas).

End Seeds.

(** ** Vocabulary of the statements *)

(** The generator the main block reaches at each level. *)
Definition expand (l : Permutations.level) (postal_codes : list string)
  : list string :=
  match l with
  | Permutations.Level1 => Permutations.generate_ldu1_permutations postal_codes
  | Permutations.Level2 => Permutations.generate_ldu2_permutations postal_codes
  | Permutations.Level3 => Permutations.generate_ldu3_permutations postal_codes
  end.



(** The aggregate over a raw store: [process_data] on its files. *)
Definition aggregate (store : gmap string value) : Output.outcome :=
  Output.process_data (List.map snd (map_to_list store)).

(** The test of the length filter at a level. *)
Definition keeps (l : Permutations.level) (key : string) : bool :=
  Permutations.actual_length key =? Permutations.required_length_map l.

(** The file a level writes. *)
Definition level_file (l : Permutations.level) : string :=
  match l with
  | Permutations.Level1 => "FSA_LDU1.json"
  | Permutations.Level2 => "FSA_LDU2.json"
  | Permutations.Level3 => "FSA_LDU3.json"
  end.

(** The layout [(NNN) NNN-NNNN] of ten characters. *)
Definition layout (d : list ascii) : string :=
  match d with
  | [d0; d1; d2; d3; d4; d5; d6; d7; d8; d9] =>
      Str.of_chars ["("; d0; d1; d2; ")"; " "; d3; d4; d5; "-"; d6; d7; d8; d9]%char
  | _ => EmptyString
  end.

(** The identifier [drop_duplicates] compares in a detail row. *)
Definition row_id (row : pydict) : option Output.key :=
  Output.cell_key (Output.cell "cpsonumber" row).

Definition has_id (k : Output.key) (row : pydict) : bool :=
  match row_id row with
  | Some k' => Output.key_eqb k' k
  | None => false
  end.

(** The weight of a list of items: the measure of the loader's loop. *)
Definition weight (data : list value) : nat :=
  list_sum (List.map Py.vsize data).

(** An attempt after which the retry loop backs off and tries again: any
    status other than 200, and any exception whose message lacks the
    control-character marker. *)
Definition transient (a : Scrape.attempt) : bool :=
  match a with
  | Scrape.Responded status_code json =>
      if (status_code =? 200)%Z then
        match json with
        | inr _ => false
        | inl message =>
            negb (Str.contains Scrape.control_character_marker message)
        end
      else true
  | Scrape.Failed message =>
      negb (Str.contains Scrape.control_character_marker message)
  end.

(** An attempt that raises with the control-character marker in its
    message, from [session.post] or from [response.json()]. *)
Definition control_character_error (a : Scrape.attempt) : bool :=
  match a with
  | Scrape.Responded status_code (inl message) =>
      (status_code =? 200)%Z
      && Str.contains Scrape.control_character_marker message
  | Scrape.Responded _ (inr _) => false
  | Scrape.Failed message =>
      Str.contains Scrape.control_character_marker message
  end.

(** The first [n] pauses of a back-off that starts at [initial] seconds. *)
Fixpoint backoff_delays (initial : Z) (n : nat) : list Scrape.pause :=
  match n with
  | 0 => []
  | S n' => Scrape.Backoff initial :: backoff_delays (initial * 2) n'
  end.

(** The key a stored result was fetched for. *)
Definition result_key (result : value) : string :=
  match result with
  | VDict d =>
      match Py.dict_get "postal_code" d with
      | Some (VStr key) => key
      | _ => EmptyString
      end
  | _ => EmptyString
  end.

(** The raw file of a result. *)
Definition result_file (p : Scrape.params) (result : value) : string :=
  Scrape.raw_filename (Scrape.output_dir p) (result_key result)
                      (Scrape.doctor_type p) (Scrape.last_name p).

(** The raw store after the results are saved, in order. *)
Definition store_all (p : Scrape.params) (results : list value)
    (store : gmap string value) : gmap string value :=
  fold_left (fun m result => <[result_file p result := result]> m)
            results store.

(** The last result saved under a file name. *)
Definition last_saved (p : Scrape.params) (file : string)
    (results : list value) : option value :=
  last (List.filter (fun result => String.eqb (result_file p result) file)
                    results).

(** The alphabet a level appends from, and the child of a key. *)
Definition alphabet (l : Permutations.level) : list ascii :=
  match l with
  | Permutations.Level2 => Permutations.VALID_LETTERS
  | _ => Permutations.VALID_DIGITS
  end.

Definition child (l : Permutations.level) (key : string) (c : ascii) : string :=
  match l with
  | Permutations.Level1 => (key +:+ "+") +:+ Permutations.char1 c
  | _ => key +:+ Permutations.char1 c
  end.

Definition is_str (v : value) : bool :=
  match v with
  | VStr _ => true
  | _ => false
  end.

Definition is_dict (v : value) : bool :=
  match v with
  | VDict _ => true
  | _ => false
  end.

(** The summary rows and the detail rows one file contributes. *)
Definition summary_rows_of (data : value) : list Output.summary_row :=
  match data with
  | VDict d =>
      [Output.SummaryRow (Py.get_default "postal_code" (VStr "unknown") d)
                         (Py.get_default "totalcount" (VInt 0) d)]
  | _ => []
  end.

Definition detail_rows_of (data : value) : list value :=
  match data with
  | VDict d =>
      match Py.dict_get "results" d with
      | Some results =>
          if Py.truthy results
          then match Py.iter_items results with
               | Some items => items
               | None => []
               end
          else []
      | None => []
      end
  | _ => []
  end.

(** The number of random pauses and the seconds of back-off in a list of
    pauses. *)
Fixpoint jitters (pauses : list Scrape.pause) : nat :=
  match pauses with
  | [] => 0
  | Scrape.Jitter :: rest => S (jitters rest)
  | Scrape.Backoff _ :: rest => jitters rest
  end.

Fixpoint backoff_seconds (pauses : list Scrape.pause) : Z :=
  match pauses with
  | [] => 0
  | Scrape.Jitter :: rest => backoff_seconds rest
  | Scrape.Backoff seconds :: rest => seconds + backoff_seconds rest
  end.

(** A row whose cell in the column is already formatted. *)
Definition formatted_in (name : string) (row : pydict) : Prop :=
  exists v, Py.dict_get name row = Some v
            /\ Output.format_phone_cell v = v.

(** * Properties *)

(** ** Strings and dicts *)

Section StrFacts.

Lemma string_length_app (a b : string) :
  String.length (a +:+ b) = String.length a + String.length b.
Proof. induction a as [|c a IH]; simpl; [reflexivity | now rewrite IH]. Qed.

Lemma remove_char_app (c : ascii) (a b : string) :
  Str.remove_char c (a +:+ b) = Str.remove_char c a +:+ Str.remove_char c b.
Proof.
  induction a as [|x a IH]; simpl; [reflexivity|].
  destruct (Ascii.eqb x c); simpl; now rewrite IH.
Qed.

Lemma keep_digits_app (a b : string) :
  Str.keep_digits (a +:+ b) = Str.keep_digits a +:+ Str.keep_digits b.
Proof.
  induction a as [|x a IH]; simpl; [reflexivity|].
  destruct (Str.is_digit x); simpl; now rewrite IH.
Qed.

Lemma append_assoc (a b c : string) : (a +:+ b) +:+ c = a +:+ (b +:+ c).
Proof.
  induction a as [|x a IH]; [reflexivity | exact (f_equal (String x) IH)].
Qed.

Lemma prefix_app (a b : string) : String.prefix a (a +:+ b) = true.
Proof.
  induction a as [|c a IH]; simpl; [now destruct b|].
  destruct (ascii_dec c c); [exact IH | congruence].
Qed.

End StrFacts.

Section DictFacts.

Lemma vsize_pos (v : value) : 1 <= Py.vsize v.
Proof. destruct v; simpl; lia. Qed.

Lemma dict_get_vsize (k : string) (d : pydict) (v : value) :
  Py.dict_get k d = Some v ->
  Py.vsize v
  <= list_sum (List.map (fun kv => match kv with (_, x) => Py.vsize x end) d).
Proof.
  induction d as [|[k' v'] d IH]; simpl; [discriminate|].
  destruct (String.eqb k' k); intros H.
  - injection H as ->. lia.
  - specialize (IH H). lia.
Qed.

Lemma dict_get_set_eq (k : string) (v : value) (d : pydict) :
  Py.dict_get k (Py.dict_set k v d) = Some v.
Proof.
  induction d as [|[k' v'] d IH]; simpl.
  - now rewrite String.eqb_refl.
  - destruct (String.eqb k' k) eqn:E; simpl.
    + now rewrite String.eqb_refl.
    + now rewrite E.
Qed.

Lemma dict_get_set_ne (k k2 : string) (v : value) (d : pydict) :
  k <> k2 -> Py.dict_get k2 (Py.dict_set k v d) = Py.dict_get k2 d.
Proof.
  intros Hne. induction d as [|[k' v'] d IH]; simpl.
  - destruct (String.eqb_spec k k2); [contradiction | reflexivity].
  - destruct (String.eqb_spec k' k) as [->|Hk]; simpl.
    + destruct (String.eqb_spec k k2); [contradiction | reflexivity].
    + destruct (String.eqb k' k2); [reflexivity | exact IH].
Qed.


End DictFacts.

(** ** The key generator *)

Section Generator.

Import Permutations.

Lemma VALID_DIGITS_length : List.length VALID_DIGITS = 10.
Proof. reflexivity. Qed.

Lemma VALID_LETTERS_length : List.length VALID_LETTERS = 20.
Proof. reflexivity. Qed.

(** The letters are the upper-case letters other than D, F, I, O, Q, U. *)
Lemma VALID_LETTERS_spec (c : ascii) :
  In c VALID_LETTERS <->
  In c (Str.chars ascii_uppercase) /\ ~ In c excluded_letters.
Proof.
  unfold VALID_LETTERS. rewrite filter_In, Bool.negb_true_iff.
  unfold in_chars. split; intros [H1 H2]; split; try assumption.
  - intros Hin. assert (existsb (Ascii.eqb c) excluded_letters = true) as E.
    { apply existsb_exists. exists c. split; [assumption | apply Ascii.eqb_refl]. }
    congruence.
  - destruct (existsb (Ascii.eqb c) excluded_letters) eqn:E; [|reflexivity].
    apply existsb_exists in E as (x & Hx & Heq).
    apply Ascii.eqb_eq in Heq. subst. contradiction.
Qed.

Lemma actual_length_app (a b : string) :
  actual_length (a +:+ b) = actual_length a + actual_length b.
Proof. unfold actual_length. now rewrite remove_char_app, string_length_app. Qed.

Lemma actual_length_char1 (c : ascii) :
  c <> "+"%char -> actual_length (char1 c) = 1.
Proof.
  intros Hc. unfold actual_length, char1. simpl.
  destruct (Ascii.eqb_spec c "+"%char); [contradiction | reflexivity].
Qed.

Lemma VALID_DIGITS_not_plus (d : ascii) : In d VALID_DIGITS -> d <> "+"%char.
Proof. intros H ->. vm_compute in H. intuition discriminate. Qed.

Lemma VALID_LETTERS_not_plus (c : ascii) : In c VALID_LETTERS -> c <> "+"%char.
Proof. intros H ->. vm_compute in H. intuition discriminate. Qed.

Lemma ldu1_single (key : string) :
  generate_ldu1_permutations [key]
  = List.map (fun d => (key +:+ "+") +:+ char1 d) VALID_DIGITS.
Proof. unfold generate_ldu1_permutations, flat_map. apply app_nil_r. Qed.

Lemma ldu2_single (key : string) :
  generate_ldu2_permutations [key]
  = List.map (fun c => key +:+ char1 c) VALID_LETTERS.
Proof. unfold generate_ldu2_permutations, flat_map. apply app_nil_r. Qed.

Lemma ldu3_single (key : string) :
  generate_ldu3_permutations [key]
  = List.map (fun d => key +:+ char1 d) VALID_DIGITS.
Proof. unfold generate_ldu3_permutations, flat_map. apply app_nil_r. Qed.

(** C1, as the code has it: a key has 10 children at ranks 1 and 3 and 20
    at rank 2.  A rank-1 child is the key, then the separator [+], then one
    digit, so it is two characters longer than its parent; a rank-2 child
    appends one of the 20 letters and a rank-3 child one digit, each one
    character longer.  At every rank the length without separators grows
    by exactly one. *)
Theorem expand_children (key : string) :
  (List.length (generate_ldu1_permutations [key]) = 10
   /\ forall child, In child (generate_ldu1_permutations [key]) ->
        (exists d, In d VALID_DIGITS /\ child = (key +:+ "+") +:+ char1 d)
        /\ String.length child = String.length key + 2
        /\ actual_length child = actual_length key + 1)
  /\ (List.length (generate_ldu2_permutations [key]) = 20
      /\ forall child, In child (generate_ldu2_permutations [key]) ->
           (exists c, In c VALID_LETTERS /\ child = key +:+ char1 c)
           /\ String.length child = String.length key + 1
           /\ actual_length child = actual_length key + 1)
  /\ (List.length (generate_ldu3_permutations [key]) = 10
      /\ forall child, In child (generate_ldu3_permutations [key]) ->
           (exists d, In d VALID_DIGITS /\ child = key +:+ char1 d)
           /\ String.length child = String.length key + 1
           /\ actual_length child = actual_length key + 1).
Proof.
  rewrite ldu1_single, ldu2_single, ldu3_single.
  rewrite !length_map, VALID_DIGITS_length, VALID_LETTERS_length.
  repeat split; try reflexivity.
  - apply in_map_iff in H as (d & <- & Hd). eauto.
  - apply in_map_iff in H as (d & <- & Hd).
    rewrite !string_length_app. simpl. lia.
  - apply in_map_iff in H as (d & <- & Hd).
    rewrite !actual_length_app.
    rewrite (actual_length_char1 d) by now apply VALID_DIGITS_not_plus.
    change (actual_length "+") with 0. lia.
  - apply in_map_iff in H as (c & <- & Hc). eauto.
  - apply in_map_iff in H as (c & <- & Hc).
    rewrite string_length_app. simpl. lia.
  - apply in_map_iff in H as (c & <- & Hc).
    rewrite actual_length_app.
    now rewrite (actual_length_char1 c) by now apply VALID_LETTERS_not_plus.
  - apply in_map_iff in H as (d & <- & Hd). eauto.
  - apply in_map_iff in H as (d & <- & Hd).
    rewrite string_length_app. simpl. lia.
  - apply in_map_iff in H as (d & <- & Hd).
    rewrite actual_length_app.
    now rewrite (actual_length_char1 d) by now apply VALID_DIGITS_not_plus.
Qed.

(** C1 as stated fails at rank 1: the first child of ["K1A"] is ["K1A+0"],
    of length 5, not 3 + 1. *)
Lemma expand_rank1_length_counterexample :
  In "K1A+0" (generate_ldu1_permutations ["K1A"])
  /\ String.length "K1A+0" <> String.length "K1A" + 1.
Proof. split; [left; reflexivity | discriminate]. Qed.

End Generator.

Lemma expand_children_witness :
  String.length "K1A+0" = String.length "K1A" + 2
  /\ Permutations.actual_length "K1A+0" = Permutations.actual_length "K1A" + 1.
Proof.
  destruct (expand_children "K1A") as [[_ H] _].
  destruct (H "K1A+0") as (_ & H1 & H2); [left; reflexivity|].
  split; assumption.
Defined.

(** ** The length filter of the refinement round *)

Section Refinement.

Import Permutations.

Lemma filter_by_length_strings (n : nat) (keys : list string) :
  filter_by_length n (List.map VStr keys)
  = Some (List.filter (fun key => actual_length key =? n) keys).
Proof.
  induction keys as [|key keys IH]; simpl; [reflexivity|].
  rewrite IH. reflexivity.
Qed.

Lemma generate_and_save_level (l : level) (keys : list string) :
  generate_and_save_permutations keys (level_map l)
  = Some (level_file l, expand l keys).
Proof. destruct l; reflexivity. Qed.

Lemma expand_extends (l : level) (keys : list string) (child : string) :
  In child (expand l keys) ->
  exists key, In key keys /\ String.prefix key child = true.
Proof.
  destruct l; simpl;
    unfold generate_ldu1_permutations, generate_ldu2_permutations,
           generate_ldu3_permutations;
    rewrite in_flat_map; intros (key & Hkey & Hchild);
    apply in_map_iff in Hchild as (c & <- & _);
    exists key; (split; [assumption|]).
  - rewrite append_assoc. apply prefix_app.
  - apply prefix_app.
  - apply prefix_app.
Qed.

(** C3, as the code has it: at each level the round keeps exactly the keys
    whose length without [+] is the required input length (3, 4, 5), in
    their order; only kept keys are expanded.  When a key is kept the
    round writes the permutations of the kept keys; when none is kept it
    stops with exit status 1 before expanding anything. *)
Theorem refine_keeps_required_length (l : level) (keys : list string) :
  let kept := List.filter (keeps l) keys in
  filter_by_length (required_length_map l) (List.map VStr keys) = Some kept
  /\ (forall key, In key kept <->
                  In key keys /\ actual_length key = required_length_map l)
  /\ refine l (VList (List.map VStr keys))
     = match kept with
       | [] => Exit 1
       | _ => Generated (level_file l) (expand l kept)
       end
  /\ (forall child, In child (expand l kept) ->
        exists key, In key keys
                    /\ actual_length key = required_length_map l
                    /\ String.prefix key child = true).
Proof.
  intros kept.
  assert (Hin : forall key, In key kept <->
            In key keys /\ actual_length key = required_length_map l).
  { intros key. unfold kept, keeps. rewrite filter_In, Nat.eqb_eq. tauto. }
  split; [apply filter_by_length_strings|].
  split; [exact Hin|].
  split.
  - unfold refine. destruct keys as [|key keys]; [reflexivity|].
    cbn [Py.truthy List.map negb Py.iter_items].
    change (VStr key :: List.map VStr keys) with (List.map VStr (key :: keys)).
    rewrite filter_by_length_strings. fold (keeps l). fold kept.
    destruct kept as [|k kept']; [reflexivity|].
    now rewrite generate_and_save_level.
  - intros child Hchild.
    destruct (expand_extends _ _ _ Hchild) as (key & Hkey & Hpre).
    apply Hin in Hkey as [Hk Hlen]. eauto.
Qed.

Lemma refine_keeps_required_length_witness :
  In "K1A" (List.filter (keeps Level1) ["K1A"; "K1A+0"; "K1B"])
  /\ refine Level1 (VList (List.map VStr ["K1A"; "K1A+0"; "K1B"]))
     = Generated "FSA_LDU1.json" (expand Level1 ["K1A"; "K1B"]).
Proof.
  destruct (refine_keeps_required_length Level1 ["K1A"; "K1A+0"; "K1B"])
    as (_ & Hin & Hrun & _).
  split.
  - apply Hin. split; [left; reflexivity | reflexivity].
  - exact Hrun.
Defined.

(** C3 as stated fails when no key passes: at level 1 the key ["K1A+0"]
    (length 4 without the separator) is dropped and the run ends with
    [sys.exit(1)]. *)
Lemma refine_all_dropped_counterexample :
  actual_length "K1A+0" <> required_length_map Level1
  /\ main Level1 (JsonFile (VList [VStr "K1A+0"])) = Exit 1.
Proof. split; [discriminate | reflexivity]. Qed.

End Refinement.

(** ** Phone numbers *)

Section Phone.

Import Output.

Lemma keep_digits_chars (s : string) :
  Str.chars (Str.keep_digits s) = List.filter Str.is_digit (Str.chars s).
Proof.
  induction s as [|c s IH]; simpl; [reflexivity|].
  destruct (Str.is_digit c); simpl; now rewrite IH.
Qed.

Lemma of_chars_chars (s : string) : Str.of_chars (Str.chars s) = s.
Proof. induction s as [|c s IH]; simpl; [reflexivity | now rewrite IH]. Qed.

Lemma chars_length (s : string) : List.length (Str.chars s) = String.length s.
Proof. induction s as [|c s IH]; simpl; [reflexivity | now rewrite IH]. Qed.

Lemma ten_chars (s : string) :
  String.length s = 10 ->
  exists d0 d1 d2 d3 d4 d5 d6 d7 d8 d9,
    Str.chars s = [d0; d1; d2; d3; d4; d5; d6; d7; d8; d9].
Proof.
  rewrite <- chars_length. intros H.
  destruct (Str.chars s) as [|d0 [|d1 [|d2 [|d3 [|d4 [|d5 [|d6 [|d7 [|d8 [|d9 [|? ?]]]]]]]]]]];
    try discriminate.
  repeat eexists.
Qed.

Lemma format_phone_digits (number : value) :
  String.length (Str.keep_digits (Py.str number)) = 10 ->
  format_phone number
  = Some (layout (List.filter Str.is_digit (Str.chars (Py.str number)))).
Proof.
  intros Hlen. unfold format_phone. rewrite Hlen. cbn [Nat.eqb].
  rewrite <- keep_digits_chars.
  destruct (ten_chars _ Hlen) as (d0 & d1 & d2 & d3 & d4 & d5 & d6 & d7 & d8 & d9 & Hc).
  rewrite Hc. rewrite <- (of_chars_chars (Str.keep_digits (Py.str number))), Hc.
  reflexivity.
Qed.

Lemma layout_digits (d : list ascii) :
  List.length d = 10 -> forallb Str.is_digit d = true ->
  List.filter Str.is_digit (Str.chars (layout d)) = d.
Proof.
  intros Hlen Hd.
  destruct d as [|d0 [|d1 [|d2 [|d3 [|d4 [|d5 [|d6 [|d7 [|d8 [|d9 [|? ?]]]]]]]]]]];
    try discriminate.
  cbn [forallb] in Hd.
  repeat (apply andb_prop in Hd as [? Hd]).
  cbn [layout Str.of_chars Str.chars List.filter].
  change (Str.is_digit "(") with false. change (Str.is_digit ")") with false.
  change (Str.is_digit " ") with false. change (Str.is_digit "-") with false.
  repeat match goal with H : Str.is_digit _ = true |- _ => rewrite H; clear H end.
  reflexivity.
Qed.

Lemma filter_is_digit_all (l : list ascii) :
  forallb Str.is_digit (List.filter Str.is_digit l) = true.
Proof.
  induction l as [|c l IH]; simpl; [reflexivity|].
  destruct (Str.is_digit c) eqn:E; simpl; [now rewrite E|assumption].
Qed.

(** C6: [format_phone] keeps the digits of [str(number)], in order; with
    exactly ten of them it returns ["(NNN) NNN-NNNN"] built from them, and
    otherwise [None], the marker of a number that cannot be formatted.
    The three examples hold, and a formatted number is mapped to itself. *)
Theorem format_phone_spec (number : value) :
  let digits := List.filter Str.is_digit (Str.chars (Py.str number)) in
  (List.length digits = 10 -> format_phone number = Some (layout digits))
  /\ (List.length digits <> 10 -> format_phone number = None)
  /\ format_phone (VStr "416-555-1234") = Some "(416) 555-1234"
  /\ format_phone (VStr "12345") = None
  /\ format_phone (VStr "(416) 555-1234") = Some "(416) 555-1234"
  /\ (forall s, format_phone number = Some s -> format_phone (VStr s) = Some s).
Proof.
  intros digits.
  assert (Hlen : List.length digits
                 = String.length (Str.keep_digits (Py.str number))).
  { unfold digits. now rewrite <- keep_digits_chars, chars_length. }
  assert (Hten : List.length digits = 10 ->
                 format_phone number = Some (layout digits)).
  { intros H. apply format_phone_digits. congruence. }
  split; [exact Hten|].
  assert (Hnot : List.length digits <> 10 -> format_phone number = None).
  { intros H. unfold format_phone. rewrite <- Hlen.
    destruct (Nat.eqb_spec (List.length digits) 10); [contradiction | reflexivity]. }
  split; [exact Hnot|].
  repeat split.
  intros s Hs.
  destruct (Nat.eq_dec (List.length digits) 10) as [H10|H10].
  - rewrite (Hten H10) in Hs. injection Hs as <-.
    assert (Hd : List.filter Str.is_digit (Str.chars (layout digits)) = digits).
    { apply layout_digits; [assumption | apply filter_is_digit_all]. }
    rewrite format_phone_digits.
    + cbn [Py.str]. now rewrite Hd.
    + cbn [Py.str]. rewrite <- chars_length, keep_digits_chars, Hd. exact H10.
  - rewrite (Hnot H10) in Hs. discriminate.
Qed.

Lemma format_phone_spec_witness :
  format_phone (VStr "416.555.1234 ext") = Some "(416) 555-1234"
  /\ format_phone (VStr "(416) 555-1234") = Some "(416) 555-1234".
Proof.
  destruct (format_phone_spec (VStr "416.555.1234 ext")) as (H & _ & _ & _ & _ & Hfix).
  split.
  - apply H. reflexivity.
  - apply Hfix. apply H. reflexivity.
Defined.

End Phone.

(** ** The cap classifier and the summary loader *)

Section Caps.

Import Output.




(** What a saved aggregate was computed from. *)
Lemma process_data_saved (files : list value) (t : tables) :
  process_data files = Saved t ->
  summary_df t = fst (read_files files)
  /\ find_capped (fst (read_files files)) = Some (summary_df_capped t)
  /\ ((snd (read_files files) = [] /\ detail_df t = [])
      \/ exists rows, snd (read_files files) <> []
           /\ as_records (snd (read_files files)) = Some rows
           /\ build_detail rows = Some (detail_df t)).
Proof.
  unfold process_data. destruct files as [|f files']; [discriminate|].
  destruct (read_files (f :: files')) as [summary_rows detail_rows].
  cbn [fst snd].
  destruct detail_rows as [|d0 drows].
  - destruct (find_capped summary_rows) as [capped|]; [|discriminate].
    intros [= <-]. cbn. auto.
  - destruct (as_records (d0 :: drows)) as [rows|] eqn:Hrec; [|discriminate].
    destruct (build_detail rows) as [detail|] eqn:Hbuild; [|discriminate].
    destruct (find_capped summary_rows) as [capped|]; [|discriminate].
    intros [= <-]. cbn [summary_df summary_df_capped detail_df].
    split; [reflexivity|]. split; [reflexivity|].
    right. exists rows. split; [discriminate|]. split; [reflexivity | exact Hbuild].
Qed.




End Caps.

(** ** Deduplication of the detail table *)

Section Dedup.

Import Output.

Lemma key_eqb_eq (a b : key) : key_eqb a b = true <-> a = b.
Proof.
  destruct a, b; simpl; try (split; [discriminate | congruence]).
  - tauto.
  - rewrite Z.eqb_eq. split; congruence.
  - rewrite String.eqb_eq. split; congruence.
Qed.

Lemma key_eqb_refl (a : key) : key_eqb a a = true.
Proof. now apply key_eqb_eq. Qed.

Lemma key_eqb_sym (a b : key) : key_eqb a b = key_eqb b a.
Proof.
  destruct (key_eqb a b) eqn:E1, (key_eqb b a) eqn:E2; try reflexivity.
  - apply key_eqb_eq in E1. subst. now rewrite key_eqb_refl in E2.
  - apply key_eqb_eq in E2. subst. now rewrite key_eqb_refl in E1.
Qed.

Lemma seen_key_eq (a b : key) (seen : list key) :
  key_eqb a b = true -> seen_key a seen = seen_key b seen.
Proof. intros H. apply key_eqb_eq in H. now subst. Qed.

(** Among the kept rows, those of a given identifier are the first row of
    that identifier, unless the identifier was seen before. *)
Lemma drop_duplicates_from_filter (seen : list key) (rows kept : list pydict)
    (k : key) :
  drop_duplicates_from "cpsonumber" seen rows = Some kept ->
  List.filter (has_id k) kept
  = if seen_key k seen then []
    else firstn 1 (List.filter (has_id k) rows).
Proof.
  revert seen kept.
  induction rows as [|row rows IH]; intros seen kept Hdd.
  - injection Hdd as <-. simpl. now destruct (seen_key k seen).
  - cbn [drop_duplicates_from] in Hdd.
    cbn [List.filter]. unfold has_id at 2, row_id.
    destruct (cell_key (cell "cpsonumber" row)) as [k0|] eqn:Hk0;
      [|discriminate].
    destruct (seen_key k0 seen) eqn:Hseen.
    + specialize (IH _ _ Hdd). rewrite IH.
      destruct (key_eqb k0 k) eqn:E; [|reflexivity].
      rewrite <- (seen_key_eq _ _ _ E), Hseen. reflexivity.
    + destruct (drop_duplicates_from "cpsonumber" (k0 :: seen) rows)
        as [kept'|] eqn:Hrest; [|discriminate].
      injection Hdd as <-. specialize (IH _ _ Hrest).
      cbn [List.filter]. unfold has_id at 1, row_id. rewrite Hk0.
      cbn [seen_key existsb] in IH. fold (seen_key k seen) in IH.
      rewrite (key_eqb_sym k k0) in IH.
      destruct (key_eqb k0 k) eqn:E.
      * cbn [orb] in IH. rewrite IH.
        rewrite <- (seen_key_eq _ _ _ E), Hseen. reflexivity.
      * cbn [orb] in IH. exact IH.
Qed.

Lemma drop_duplicates_from_total (seen : list key) (rows : list pydict) :
  (forall row, In row rows -> row_id row <> None) ->
  exists kept, drop_duplicates_from "cpsonumber" seen rows = Some kept.
Proof.
  revert seen. induction rows as [|row rows IH]; intros seen Hid.
  - now exists [].
  - cbn [drop_duplicates_from].
    destruct (cell_key (cell "cpsonumber" row)) as [k0|] eqn:Hk0.
    + destruct (seen_key k0 seen).
      * apply IH. intros r Hr. apply Hid. now right.
      * destruct (IH (k0 :: seen)) as [kept' ->];
          [intros r Hr; apply Hid; now right|].
        now eexists.
    + exfalso. apply (Hid row); [now left | exact Hk0].
Qed.

Lemma filter_has_id_first (k : key) (pre post : list pydict) (r0 : pydict) :
  row_id r0 = Some k ->
  (forall r, In r pre -> has_id k r = false) ->
  firstn 1 (List.filter (has_id k) (pre ++ r0 :: post)) = [r0].
Proof.
  intros Hr0 Hpre. rewrite List.filter_app.
  assert (List.filter (has_id k) pre = []) as ->.
  { induction pre as [|r pre IH]; [reflexivity|]. cbn [List.filter].
    rewrite (Hpre r) by now left.
    apply IH. intros r' Hr'. apply Hpre. now right. }
  cbn [app List.filter]. unfold has_id at 1. rewrite Hr0, key_eqb_refl.
  reflexivity.
Qed.

(** Formatting a phone column leaves the other fields of a row alone. *)
Lemma apply_format_phone_filter (name : string) (k : key)
    (rows : list pydict) :
  name <> "cpsonumber" ->
  List.filter (has_id k) (apply_format_phone name rows)
  = apply_format_phone name (List.filter (has_id k) rows).
Proof.
  intros Hname. unfold apply_format_phone.
  induction rows as [|row rows IH]; [reflexivity|].
  cbn [List.map List.filter].
  assert (has_id k (Py.dict_set name (format_phone_cell (cell name row)) row)
          = has_id k row) as ->.
  { unfold has_id, row_id, cell, Py.get_default.
    now rewrite dict_get_set_ne. }
  destruct (has_id k row); cbn [List.map]; now rewrite IH.
Qed.

Lemma not_in_columns (name : string) (rows : list pydict) (row : pydict) :
  in_columns name rows = false -> In row rows -> cell name row = VNaN.
Proof.
  unfold in_columns. intros Hcol Hin.
  destruct (Py.dict_get name row) as [v|] eqn:Hget.
  - assert (existsb (has_key name) rows = true) as E.
    { apply existsb_exists. exists row. split; [assumption|].
      unfold has_key. now rewrite Hget. }
    congruence.
  - unfold cell, Py.get_default. now rewrite Hget.
Qed.

Lemma build_detail_first (rows out : list pydict) (k : key)
    (pre post : list pydict) (r0 : pydict) :
  build_detail rows = Some out ->
  k <> KNA ->
  rows = pre ++ r0 :: post ->
  row_id r0 = Some k ->
  (forall r, In r pre -> has_id k r = false) ->
  exists r, List.filter (has_id k) out = [r]
    /\ forall field, field <> "phonenumber" -> field <> "fax" ->
                     Py.dict_get field r = Py.dict_get field r0.
Proof.
  intros Hbuild Hk Hrows Hr0 Hpre. unfold build_detail in Hbuild.
  destruct (in_columns "cpsonumber" rows) eqn:Hcol.
  - destruct (drop_duplicates "cpsonumber" rows) as [kept|] eqn:Hdd;
      [|discriminate].
    injection Hbuild as <-.
    assert (Hkept : List.filter (has_id k) kept = [r0]).
    { unfold drop_duplicates in Hdd.
      rewrite (drop_duplicates_from_filter _ _ _ k Hdd).
      cbn [seen_key existsb]. subst rows. now apply filter_has_id_first. }
    set (df1 := if in_columns "phonenumber" rows
                then apply_format_phone "phonenumber" kept else kept).
    assert (H1 : exists r1, List.filter (has_id k) df1 = [r1]
              /\ forall field, field <> "phonenumber" ->
                               Py.dict_get field r1 = Py.dict_get field r0).
    { unfold df1. destruct (in_columns "phonenumber" rows).
      - rewrite apply_format_phone_filter by discriminate. rewrite Hkept.
        eexists. split; [reflexivity|].
        intros field Hf. apply dict_get_set_ne. congruence.
      - exists r0. split; [assumption | reflexivity]. }
    destruct H1 as (r1 & Hdf1 & Hfields1).
    destruct (in_columns "fax" rows).
    + rewrite apply_format_phone_filter by discriminate. rewrite Hdf1.
      eexists. split; [reflexivity|].
      intros field Hp Hf. cbn [List.map].
      rewrite dict_get_set_ne by congruence. now apply Hfields1.
    + exists r1. split; [assumption|]. intros field Hp _. now apply Hfields1.
  - exfalso.
    assert (Hin : In r0 rows) by (subst rows; apply in_elt).
    pose proof (not_in_columns _ _ _ Hcol Hin) as Hcell.
    unfold row_id in Hr0. rewrite Hcell in Hr0. simpl in Hr0. congruence.
Qed.

Lemma build_detail_total (rows : list pydict) :
  (forall row, In row rows -> row_id row <> None) ->
  exists out, build_detail rows = Some out.
Proof.
  intros Hid. unfold build_detail.
  destruct (in_columns "cpsonumber" rows); [|now eexists].
  destruct (drop_duplicates_from_total [] rows Hid) as [kept Hkept].
  unfold drop_duplicates. rewrite Hkept. now eexists.
Qed.

(** C7: in the detail table that [process_data] saves, the rows of an
    identifier [cpsonumber] are exactly one: the first record seen with it
    (its phone and fax cells formatted, every other field as read).  All
    later records of that identifier are gone.  The table is built
    whenever every identifier can be hashed. *)
Theorem detail_first_seen_wins (files : list value) (rows : list pydict) :
  Output.as_records (snd (read_files files)) = Some rows ->
  (forall t, process_data files = Saved t ->
     forall k pre r0 post,
       k <> KNA ->
       rows = pre ++ r0 :: post ->
       row_id r0 = Some k ->
       (forall r, In r pre -> has_id k r = false) ->
       exists r, List.filter (has_id k) (detail_df t) = [r]
         /\ forall field, field <> "phonenumber" -> field <> "fax" ->
                          Py.dict_get field r = Py.dict_get field r0)
  /\ (files <> [] -> fst (read_files files) <> [] ->
      (forall row, In row rows -> row_id row <> None) ->
      exists t, process_data files = Saved t).
Proof.
  intros Hrec. split.
  - intros t Ht k pre r0 post Hk Hrows Hr0 Hpre.
    apply process_data_saved in Ht as (_ & _ & [[Hnil _]|(rows' & _ & Hrec' & Hbuild)]).
    + rewrite Hnil in Hrec. injection Hrec as <-. now destruct pre.
    + assert (rows' = rows) as -> by congruence.
      eapply build_detail_first; eauto.
  - intros Hfiles Hsummary Hid. unfold process_data.
    destruct files as [|f files']; [contradiction|].
    destruct (read_files (f :: files')) as [summary_rows detail_rows].
    cbn [snd] in Hrec. cbn [fst] in Hsummary.
    destruct summary_rows as [|s0 srows]; [contradiction|].
    cbn [find_capped].
    destruct detail_rows as [|d0 drows]; [now eexists|].
    rewrite Hrec.
    destruct (build_detail_total rows Hid) as [out ->]. now eexists.
Qed.

End Dedup.

Lemma detail_first_seen_wins_witness :
  exists t r,
    Output.process_data
      [VDict [("postal_code", VStr "K1A+0"); ("totalcount", VInt 2);
              ("results",
               VList [VDict [("cpsonumber", VStr "CPSO-1"); ("name", VStr "first")];
                      VDict [("cpsonumber", VStr "CPSO-1"); ("name", VStr "second")]])]]
    = Output.Saved t
    /\ List.filter (has_id (Output.KStr "CPSO-1")) (Output.detail_df t) = [r]
    /\ Py.dict_get "name" r = Some (VStr "first").
Proof.
  destruct (detail_first_seen_wins
              [VDict [("postal_code", VStr "K1A+0"); ("totalcount", VInt 2);
                      ("results",
                       VList [VDict [("cpsonumber", VStr "CPSO-1"); ("name", VStr "first")];
                              VDict [("cpsonumber", VStr "CPSO-1"); ("name", VStr "second")]])]]
              [[("cpsonumber", VStr "CPSO-1"); ("name", VStr "first")];
               [("cpsonumber", VStr "CPSO-1"); ("name", VStr "second")]]
              eq_refl) as [Hfirst Htotal].
  destruct Htotal as [t Ht].
  - discriminate.
  - vm_compute. discriminate.
  - intros row [<-|[<-|[]]]; vm_compute; discriminate.
  - destruct (Hfirst t Ht (Output.KStr "CPSO-1") []
                [("cpsonumber", VStr "CPSO-1"); ("name", VStr "first")]
                [[("cpsonumber", VStr "CPSO-1"); ("name", VStr "second")]])
      as (r & Hr & Hfields).
    + discriminate.
    + reflexivity.
    + reflexivity.
    + intros r [].
    + exists t, r. split; [exact Ht|]. split; [exact Hr|].
      rewrite Hfields by discriminate. reflexivity.
Defined.

(** ** The JSON loader *)

Section JsonLoader.

Import Permutations.

Lemma capped_postal_code_smaller (item : value) :
  is_capped_item item = true ->
  Py.vsize (item_postal_code item) < Py.vsize item.
Proof.
  destruct item as [| | | | | |d]; try discriminate.
  unfold is_capped_item, item_postal_code, Py.get_default.
  destruct (Py.dict_get "totalcount" d) as [tc|] eqn:Htc; [|discriminate].
  intros _. apply dict_get_vsize in Htc. pose proof (vsize_pos tc).
  cbn [Py.vsize].
  destruct (Py.dict_get "postal_code" d) as [pc|] eqn:Hpc.
  - apply dict_get_vsize in Hpc. lia.
  - cbn [Py.vsize]. lia.
Qed.

Lemma weight_app (a b : list value) : weight (a ++ b) = weight a + weight b.
Proof. unfold weight. now rewrite List.map_app, list_sum_app. Qed.

Lemma weight_length (data : list value) : List.length data <= weight data.
Proof.
  induction data as [|x data IH]; [reflexivity|].
  change (weight (x :: data)) with (Py.vsize x + weight data).
  pose proof (vsize_pos x). simpl. lia.
Qed.

(** Enough fuel: every turn of the aliased loop lowers the weight of the
    items still to visit. *)
Lemma load_loop_aliased_total (fuel : nat) :
  forall data i, weight (drop i data) < fuel ->
    exists r, load_loop fuel data i Aliased = Some r.
Proof.
  induction fuel as [|fuel IH]; intros data i Hw; [lia|].
  cbn [load_loop]. destruct (data !! i) as [item|] eqn:Hi; [|now eexists].
  pose proof (lookup_lt_Some _ _ _ Hi) as Hlt.
  rewrite (drop_S _ _ _ Hi) in Hw.
  change (weight (item :: drop (S i) data))
    with (Py.vsize item + weight (drop (S i) data)) in Hw.
  destruct (is_capped_item item) eqn:Hc.
  - apply IH. rewrite drop_app_le by lia. rewrite weight_app.
    apply capped_postal_code_smaller in Hc.
    change (weight [item_postal_code item])
      with (Py.vsize (item_postal_code item) + 0). lia.
  - apply IH. pose proof (vsize_pos item). lia.
Qed.

Lemma load_loop_aliased_inv (P : list value -> nat -> Prop) :
  (forall data i item, P data i -> data !! i = Some item ->
     P (if is_capped_item item then data ++ [item_postal_code item] else data)
       (S i)) ->
  forall fuel data i r,
    P data i -> load_loop fuel data i Aliased = Some r ->
    exists n, P r n /\ List.length r <= n.
Proof.
  intros Hstep. induction fuel as [|fuel IH]; intros data i r HP Hr;
    [discriminate|].
  cbn [load_loop] in Hr. destruct (data !! i) as [item|] eqn:Hi.
  - pose proof (Hstep _ _ _ HP Hi) as HP'.
    destruct (is_capped_item item); exact (IH _ _ _ HP' Hr).
  - injection Hr as <-. exists i. split; [assumption|].
    now apply lookup_ge_None.
Qed.

(** The loop before the first item that is not a capped dict. *)
Lemma load_loop_own_until (data : list value) (n : nat) :
  forall i acc fuel item,
    (forall k x, i <= k < i + n -> data !! k = Some x ->
                 is_capped_item x = true) ->
    data !! (i + n) = Some item -> is_capped_item item = false ->
    load_loop (S (n + fuel)) data i (Own acc)
    = load_loop fuel data (S (i + n)) Aliased.
Proof.
  induction n as [|n IH]; intros i acc fuel item Hcap Hi Hitem.
  - rewrite Nat.add_0_r in *. cbn [load_loop Nat.add]. now rewrite Hi, Hitem.
  - assert (exists x, data !! i = Some x) as [x Hx].
    { apply lookup_lt_is_Some_2. apply lookup_lt_Some in Hi. lia. }
    cbn [load_loop]. rewrite Hx.
    rewrite (Hcap i x) by (lia || assumption).
    change (S n + fuel) with (S (n + fuel)).
    replace (i + S n) with (S i + n) in * by lia.
    apply (IH (S i) _ fuel item); try assumption.
    intros k y Hk. apply Hcap. lia.
Qed.

Lemma load_loop_own_all (data : list value) (n : nat) :
  forall i acc fuel,
    List.length data = i + n ->
    (forall k x, i <= k -> data !! k = Some x -> is_capped_item x = true) ->
    load_loop (S (n + fuel)) data i (Own acc)
    = Some (acc ++ List.map item_postal_code (drop i data)).
Proof.
  induction n as [|n IH]; intros i acc fuel Hlen Hcap.
  - cbn [load_loop]. rewrite lookup_ge_None_2 by lia.
    rewrite drop_ge by lia. now rewrite app_nil_r.
  - assert (exists x, data !! i = Some x) as [x Hx].
    { apply lookup_lt_is_Some_2. lia. }
    cbn [load_loop]. rewrite Hx.
    rewrite (Hcap i x) by (lia || assumption).
    change (S n + fuel) with (S (n + fuel)).
    rewrite (IH (S i)) by (lia || (intros k y Hk; apply Hcap; lia)).
    rewrite (drop_S _ _ _ Hx). cbn [List.map].
    now rewrite <- app_assoc.
Qed.

Lemma forallb_lookup (f : value -> bool) (l : list value) :
  forallb f l = true <-> forall k x, l !! k = Some x -> f x = true.
Proof.
  rewrite forallb_forall. split.
  - intros H k x Hk. apply H. apply list_elem_of_In.
    eapply list_elem_of_lookup_2; eassumption.
  - intros H x Hx. apply list_elem_of_In, list_elem_of_lookup in Hx as [k Hk].
    eauto.
Qed.

(** After the alias is made at index [j], the list is the input followed
    by the postal codes of the capped dicts visited since. *)
Lemma aliased_step (data : list value) (j : nat) :
  forall cur i item,
    (S j <= i /\ cur = data ++ List.map item_postal_code
                          (List.filter is_capped_item (drop (S j) (take i cur)))) ->
    cur !! i = Some item ->
    let cur' := if is_capped_item item then cur ++ [item_postal_code item]
                else cur in
    S j <= S i
    /\ cur' = data ++ List.map item_postal_code
                (List.filter is_capped_item (drop (S j) (take (S i) cur'))).
Proof.
  intros cur i item [Hji Hcur] Hi cur'.
  pose proof (lookup_lt_Some _ _ _ Hi) as Hlt.
  split; [lia|].
  assert (Htake : take (S i) cur' = take i cur ++ [item]).
  { unfold cur'. destruct (is_capped_item item).
    - rewrite take_app_le by lia. now apply take_S_r.
    - now apply take_S_r. }
  rewrite Htake, drop_app_le by (rewrite length_take; lia).
  rewrite List.filter_app, List.map_app. cbn [List.filter].
  unfold cur'. destruct (is_capped_item item).
  - cbn [List.map]. rewrite app_assoc. now rewrite <- Hcur.
  - cbn [List.map]. now rewrite app_nil_r.
Qed.

Lemma aliased_step_flat (data : list value) (j : nat) :
  (forall x, In x data -> is_capped_item x = true ->
             is_capped_item (item_postal_code x) = false) ->
  forall cur i item,
    (S j <= i /\ cur = data ++ List.map item_postal_code
                          (List.filter is_capped_item (drop (S j) (take i data)))) ->
    cur !! i = Some item ->
    let cur' := if is_capped_item item then cur ++ [item_postal_code item]
                else cur in
    S j <= S i
    /\ cur' = data ++ List.map item_postal_code
                (List.filter is_capped_item (drop (S j) (take (S i) data))).
Proof.
  intros Hflat cur i item [Hji Hcur] Hi cur'.
  split; [lia|].
  destruct (Nat.lt_ge_cases i (List.length data)) as [Hlt|Hge].
  - assert (Hdi : data !! i = Some item).
    { rewrite Hcur in Hi. now rewrite lookup_app_l in Hi. }
    rewrite (take_S_r _ _ _ Hdi), drop_app_le by (rewrite length_take; lia).
    rewrite List.filter_app, List.map_app. cbn [List.filter].
    unfold cur'. destruct (is_capped_item item).
    + cbn [List.map]. rewrite app_assoc. now rewrite <- Hcur.
    + cbn [List.map]. now rewrite app_nil_r.
  - assert (Hc : is_capped_item item = false).
    { rewrite Hcur in Hi. rewrite lookup_app_r in Hi by lia.
      apply list_elem_of_lookup_2, list_elem_of_In in Hi.
      apply in_map_iff in Hi as (x & <- & Hx).
      apply filter_In in Hx as [Hx Hcx].
      apply Hflat; [|assumption].
      apply list_elem_of_In. apply list_elem_of_In in Hx.
      apply (subseteq_take i), (subseteq_drop (S j)). exact Hx. }
    unfold cur'. rewrite Hc.
    rewrite (take_ge data (S i)) by lia.
    rewrite (take_ge data i) in Hcur by lia. exact Hcur.
Qed.

Lemma aliased_from_start (data : list value) (j : nat) :
  S j <= S j
  /\ data = data ++ List.map item_postal_code
              (List.filter is_capped_item (drop (S j) (take (S j) data))).
Proof.
  split; [lia|].
  rewrite drop_ge by (rewrite length_take; lia). cbn. now rewrite app_nil_r.
Qed.

(** C10: when every item of the JSON list is a dict with [totalcount]
    -1, the loader returns their [postal_code] values in order.
    Otherwise, with [j] the index of the first item that is not such a
    dict, [postal_codes] becomes the input list itself: the result holds
    every item of the input, followed by the [postal_code] of each capped
    dict that stands after index [j] in the result.  When no such
    [postal_code] is itself a capped dict, these are the capped dicts of
    the input after index [j]. *)
Theorem load_postal_codes_json_aliasing (data : list value) :
  (forallb is_capped_item data = true ->
     load_postal_codes_json data = Some (List.map item_postal_code data)
     /\ load_postal_codes (JsonFile (VList data))
        = VList (List.map item_postal_code data))
  /\ (forall j item,
        data !! j = Some item -> is_capped_item item = false ->
        forallb is_capped_item (take j data) = true ->
        exists r,
          load_postal_codes_json data = Some r
          /\ load_postal_codes (JsonFile (VList data)) = VList r
          /\ r = data ++ List.map item_postal_code
                   (List.filter is_capped_item (drop (S j) r))
          /\ ((forall x, In x data -> is_capped_item x = true ->
                         is_capped_item (item_postal_code x) = false) ->
              r = data ++ List.map item_postal_code
                    (List.filter is_capped_item (drop (S j) data)))).
Proof.
  pose proof (weight_length data) as Hwl.
  split.
  - intros Hall.
    assert (H : load_postal_codes_json data
                = Some (List.map item_postal_code data)).
    { unfold load_postal_codes_json, load_fuel. fold (weight data).
      replace (S (weight data))
        with (S (List.length data + (weight data - List.length data))) by lia.
      rewrite (load_loop_own_all data (List.length data) 0) by
        (reflexivity ||
         (intros k x _ Hk; now apply (proj1 (forallb_lookup _ _) Hall k x))).
      reflexivity. }
    split; [exact H|]. cbn [load_postal_codes]. now rewrite H.
  - intros j item Hj Hitem Hbefore.
    pose proof (lookup_lt_Some _ _ _ Hj) as Hlt.
    assert (Hw : weight (drop (S j) data) < weight data - j).
    { rewrite <- (take_drop (S j) data) at 2. rewrite weight_app.
      pose proof (weight_length (take (S j) data)) as Ht.
      rewrite length_take in Ht. lia. }
    assert (Hown : load_postal_codes_json data
                   = load_loop (weight data - j) data (S j) Aliased).
    { unfold load_postal_codes_json, load_fuel. fold (weight data).
      replace (S (weight data)) with (S (j + (weight data - j))) by lia.
      apply (load_loop_own_until data j 0 [] _ item); try assumption.
      intros k x Hk Hx.
      apply (proj1 (forallb_lookup _ _) Hbefore k x).
      rewrite lookup_take_lt by lia. exact Hx. }
    destruct (load_loop_aliased_total _ _ _ Hw) as [r Hr].
    exists r. rewrite Hown.
    split; [exact Hr|].
    split.
    { cbn [load_postal_codes]. now rewrite Hown, Hr. }
    split.
    + destruct (load_loop_aliased_inv _ (aliased_step data j) _ _ _ _
                  (aliased_from_start data j) Hr) as (n & [_ Hn] & Hlen).
      rewrite take_ge in Hn by lia. exact Hn.
    + intros Hflat.
      assert (Hstart : S j <= S j
                /\ data = data ++ List.map item_postal_code
                     (List.filter is_capped_item
                        (drop (S j) (take (S j) data)))).
      { apply aliased_from_start. }
      destruct (load_loop_aliased_inv
                  (fun cur i => S j <= i /\ cur = data ++ List.map item_postal_code
                     (List.filter is_capped_item (drop (S j) (take i data))))
                  (aliased_step_flat data j Hflat) _ _ _ _ Hstart Hr)
        as (n & [_ Hn] & Hlen).
      assert (List.length data <= List.length r).
      { rewrite Hn at 1. rewrite length_app. lia. }
      rewrite take_ge in Hn by lia. exact Hn.
Qed.

Lemma load_postal_codes_json_aliasing_witness :
  load_postal_codes
    (JsonFile (VList [VDict [("postal_code", VStr "K1A"); ("totalcount", VInt (-1))];
                      VDict [("postal_code", VStr "K1B"); ("totalcount", VInt 3)];
                      VDict [("postal_code", VStr "K1C"); ("totalcount", VInt (-1))]]))
  = VList [VDict [("postal_code", VStr "K1A"); ("totalcount", VInt (-1))];
           VDict [("postal_code", VStr "K1B"); ("totalcount", VInt 3)];
           VDict [("postal_code", VStr "K1C"); ("totalcount", VInt (-1))];
           VStr "K1C"].
Proof.
  destruct (load_postal_codes_json_aliasing
              [VDict [("postal_code", VStr "K1A"); ("totalcount", VInt (-1))];
               VDict [("postal_code", VStr "K1B"); ("totalcount", VInt 3)];
               VDict [("postal_code", VStr "K1C"); ("totalcount", VInt (-1))]])
    as [_ H].
  destruct (H 1 (VDict [("postal_code", VStr "K1B"); ("totalcount", VInt 3)]))
    as (r & _ & Hload & _ & Hflat); [reflexivity | reflexivity | reflexivity |].
  rewrite Hload. f_equal. apply Hflat.
  intros x [<-|[<-|[<-|[]]]]; intros Hc; (discriminate || reflexivity).
Defined.

End JsonLoader.

(** ** The retry loop *)

Section Retry.

Import Scrape.

Lemma back_off_step (m : nat) (b : backoff) (st : state) :
  exists st', back_off m b st
              = (Continue (BackoffState (S (retries b)) (delay b * 2)), st')
    /\ posts st' = posts st /\ gets st' = gets st /\ raw st' = raw st
    /\ slept st' = slept st ++ [Backoff (delay b)].
Proof. unfold back_off. eexists. split; [reflexivity|]. now repeat split. Qed.

Lemma attempt_once_transient (w : world) (m : nat) (b : backoff) (st : state) :
  transient (post w (posts st)) = true ->
  exists st', attempt_once w m b st
              = (Continue (BackoffState (S (retries b)) (delay b * 2)), st')
    /\ posts st' = S (posts st) /\ gets st' = gets st /\ raw st' = raw st
    /\ slept st' = slept st ++ [Backoff (delay b)].
Proof.
  intros Ht. unfold attempt_once, transient in *.
  destruct (post w (posts st)) as [code json|message].
  - destruct (code =? 200)%Z.
    + destruct json as [message|payload]; [|discriminate].
      unfold on_exception.
      destruct (Str.contains control_character_marker message);
        [discriminate|].
      edestruct back_off_step as (st' & -> & ?). eexists. split; [reflexivity|].
      cbn in *. intuition congruence.
    + destruct (code =? 429)%Z;
        (edestruct back_off_step as (st' & -> & ?); eexists;
         split; [reflexivity|]; cbn in *; intuition congruence).
  - unfold on_exception.
    destruct (Str.contains control_character_marker message); [discriminate|].
    edestruct back_off_step as (st' & -> & ?). eexists. split; [reflexivity|].
    cbn in *. intuition congruence.
Qed.

Lemma attempt_once_control_character (w : world) (m : nat) (b : backoff)
    (st : state) :
  control_character_error (post w (posts st)) = true ->
  exists st', attempt_once w m b st = (Return VNone, st')
    /\ posts st' = S (posts st) /\ gets st' = gets st /\ raw st' = raw st
    /\ slept st' = slept st.
Proof.
  intros Hc. unfold attempt_once, control_character_error in *.
  destruct (post w (posts st)) as [code [message|payload]|message];
    try discriminate.
  - apply andb_prop in Hc as [-> Hm]. unfold on_exception. rewrite Hm.
    eexists. split; [reflexivity|]. now repeat split.
  - unfold on_exception. rewrite Hc.
    eexists. split; [reflexivity|]. now repeat split.
Qed.


(** [n] transient attempts in a row: [n] back-offs, each twice the one
    before, and the loop goes on with [n] more retries counted. *)
Lemma retry_loop_transients (w : world) (m : nat) (n : nat) :
  forall rem b st,
    (forall k, k < n -> transient (post w (posts st + k)) = true) ->
    exists st',
      retry_loop w m (n + rem) b st
      = retry_loop w m rem
          (BackoffState (retries b + n) (delay b * 2 ^ Z.of_nat n)) st'
      /\ posts st' = posts st + n /\ gets st' = gets st /\ raw st' = raw st
      /\ slept st' = slept st ++ backoff_delays (delay b) n.
Proof.
  induction n as [|n IH]; intros rem b st Htr.
  - exists st. rewrite Nat.add_0_r, Z.mul_1_r, app_nil_r.
    destruct b. now repeat split.
  - destruct (attempt_once_transient w m b st) as (st1 & H1 & Hp & Hg & Hr & Hs).
    { specialize (Htr 0). rewrite Nat.add_0_r in Htr. apply Htr. lia. }
    destruct (IH rem (BackoffState (S (retries b)) (delay b * 2)) st1)
      as (st' & H' & Hp' & Hg' & Hr' & Hs').
    { intros k Hk. rewrite Hp. replace (S (posts st) + k) with (posts st + S k)
        by lia. apply Htr. lia. }
    exists st'. cbn [Nat.add retry_loop]. rewrite H1, H'.
    cbn [retries delay] in *.
    split.
    { f_equal. f_equal; [lia|].
      rewrite Nat2Z.inj_succ, Z.pow_succ_r by lia. lia. }
    repeat split; try congruence; try lia.
    rewrite Hs', Hs. cbn [backoff_delays]. now rewrite <- app_assoc.
Qed.

(** The loop makes no more attempts than its condition allows and never
    touches the raw store. *)
Lemma retry_loop_bound (w : world) (m : nat) (rem : nat) :
  forall b st result b' st',
    retry_loop w m rem b st = (result, b', st') ->
    posts st <= posts st' <= posts st + rem
    /\ gets st' = gets st /\ raw st' = raw st.
Proof.
  induction rem as [|rem IH]; intros b st result b' st' H.
  - cbn in H. injection H as <- <- <-. cbn. repeat split; lia.
  - cbn [retry_loop] in H.
    destruct (transient (post w (posts st))) eqn:Ht.
    + destruct (attempt_once_transient w m b st Ht)
        as (st1 & H1 & Hp & Hg & Hr & _).
      rewrite H1 in H. apply IH in H as (Hle & Hg' & Hr').
      repeat split; try congruence; lia.
    + unfold attempt_once in H. unfold transient in Ht.
      destruct (post w (posts st)) as [code json|message].
      * destruct (code =? 200)%Z; [|discriminate].
        destruct json as [message|payload].
        -- unfold on_exception in H.
           destruct (Str.contains control_character_marker message);
             [|discriminate].
           injection H as <- <- <-. cbn. repeat split; lia.
        -- injection H as <- <- <-. cbn. repeat split; lia.
      * unfold on_exception in H.
        destruct (Str.contains control_character_marker message);
          [|discriminate].
        injection H as <- <- <-. cbn. repeat split; lia.
Qed.


Lemma fetch_with_backoff_control_character (w : world) (m : nat) (d0 : Z)
    (st : state) (n : nat) :
  n < m ->
  (forall k, k < n -> transient (post w (posts st + k)) = true) ->
  control_character_error (post w (posts st + n)) = true ->
  exists st',
    fetch_with_backoff w m d0 st
    = (VNone, BackoffState n (d0 * 2 ^ Z.of_nat n), st')
    /\ posts st' = posts st + S n /\ gets st' = gets st /\ raw st' = raw st
    /\ slept st' = slept st ++ backoff_delays d0 n.
Proof.
  intros Hn Htr Hcc. unfold fetch_with_backoff.
  destruct (retry_loop_transients w m n (S (m - S n)) (BackoffState 0 d0) st Htr)
    as (st1 & H1 & Hp & Hg & Hr & Hs).
  replace (n + S (m - S n)) with m in H1 by lia. rewrite H1.
  cbn [delay retries] in Hs.
  cbn [retry_loop retries delay Nat.add].
  rewrite <- Hp in Hcc.
  destruct (attempt_once_control_character w m
              (BackoffState n (d0 * 2 ^ Z.of_nat n)) st1 Hcc)
    as (st' & -> & Hp' & Hg' & Hr' & Hs').
  exists st'. split; [reflexivity|]. repeat split; try congruence; lia.
Qed.

Lemma fetch_with_backoff_exhausted (w : world) (m : nat) (d0 : Z) (st : state) :
  (forall k, k < m -> transient (post w (posts st + k)) = true) ->
  exists st',
    fetch_with_backoff w m d0 st
    = (VNone, BackoffState m (d0 * 2 ^ Z.of_nat m), st')
    /\ posts st' = posts st + m /\ gets st' = gets st /\ raw st' = raw st
    /\ slept st' = slept st ++ backoff_delays d0 m.
Proof.
  intros Htr. unfold fetch_with_backoff.
  destruct (retry_loop_transients w m m 0 (BackoffState 0 d0) st Htr)
    as (st1 & H1 & Hp & Hg & Hr & Hs).
  replace (m + 0) with m in H1 by lia. rewrite H1.
  cbn [delay retries] in Hs.
  cbn [retry_loop retries Nat.add delay].
  eexists. split; [reflexivity|]. cbn. now repeat split.
Qed.

Lemma fetch_one_result (w : world) (p : params) (key : string)
    (acc : list value) (st : state) (result : value) (b : backoff)
    (st4 : state) :
  request_body key (doctor_type p) (last_name p) <> None ->
  get_ok w (gets st) = true ->
  fetch_with_backoff w 5 2
    (count_get
       (print ("Fetching results for postal code=" +:+ key
               +:+ "; physician type=" +:+ doctor_type p
               +:+ "; last name=" +:+ last_name p +:+ "...")
          (sleep Jitter st)))
  = (result, b, st4) ->
  (Py.truthy result = false -> fetch_one w p key acc st = (st4, Some acc))
  /\ (forall d n,
        result = VDict d -> d <> [] ->
        results_len (Py.dict_set "postal_code" (VStr key) d) = Some n ->
        exists st',
          fetch_one w p key acc st
          = (st', Some (acc ++ [VDict (Py.dict_set "postal_code" (VStr key) d)]))
          /\ posts st' = posts st4 /\ gets st' = gets st4
          /\ slept st' = slept st4
          /\ raw st'
             = <[raw_filename (output_dir p) key (doctor_type p) (last_name p)
                 := VDict (Py.dict_set "postal_code" (VStr key) d)]> (raw st4)).
Proof.
  intros Hbody Hget Hfetch. unfold fetch_one.
  destruct (request_body key (doctor_type p) (last_name p)); [|contradiction].
  cbn [gets print sleep]. rewrite Hget. cbn [negb].
  cbn [gets print sleep] in Hfetch. rewrite Hfetch.
  split.
  - intros ->. reflexivity.
  - intros d n -> Hd Hlen.
    destruct d as [|kv d]; [contradiction|]. cbn [Py.truthy].
    rewrite Hlen. eexists. split; [reflexivity|]. now repeat split.
Qed.



(** C5: an attempt that raises with the control-character marker makes
    the loop return [None] at once: no sleep, no retry counted (the
    counter stays at the number of earlier transient attempts), no
    further request.  The key loop then goes on with the keys that
    remain, the results and the raw store as they were. *)
Theorem control_character_is_not_retried (w : world) (st : state) :
  (forall b, control_character_error (post w (posts st)) = true ->
     exists st',
       attempt_once w 5 b st = (Return VNone, st')
       /\ slept st' = slept st /\ posts st' = S (posts st))
  /\ (forall n,
        n < 5 ->
        (forall k, k < n -> transient (post w (posts st + k)) = true) ->
        control_character_error (post w (posts st + n)) = true ->
        (exists st',
           fetch_with_backoff w 5 2 st
           = (VNone, BackoffState n (2 * 2 ^ Z.of_nat n), st')
           /\ posts st' = posts st + S n
           /\ slept st' = slept st ++ backoff_delays 2 n)
        /\ forall p key rest acc,
             request_body key (doctor_type p) (last_name p) <> None ->
             get_ok w (gets st) = true ->
             exists st',
               fetch_one w p key acc st = (st', Some acc)
               /\ raw st' = raw st
               /\ posts st' = posts st + S n
               /\ fetch_loop w p (key :: rest) acc st
                  = fetch_loop w p rest acc st').
Proof.
  split.
  { intros b Hcc.
    destruct (attempt_once_control_character w 5 b st Hcc)
      as (st' & H & Hp & _ & _ & Hs).
    eauto. }
  intros n Hn Htr Hcc. split.
  { destruct (fetch_with_backoff_control_character w 5 2 st n Hn Htr Hcc)
      as (st' & H & Hp & _ & _ & Hs).
    eauto. }
  intros p key rest acc Hbody Hget.
  set (st3 := count_get
                (print ("Fetching results for postal code=" +:+ key
                        +:+ "; physician type=" +:+ doctor_type p
                        +:+ "; last name=" +:+ last_name p +:+ "...")
                   (sleep Jitter st))).
  destruct (fetch_with_backoff_control_character w 5 2 st3 n Hn Htr Hcc)
    as (st4 & H & Hp & Hg & Hr & Hs).
  destruct (fetch_one_result w p key acc st _ _ _ Hbody Hget H) as [Hnone _].
  exists st4. rewrite (Hnone eq_refl).
  split; [reflexivity|]. split; [exact Hr|]. split; [exact Hp|].
  cbn [fetch_loop]. now rewrite (Hnone eq_refl).
Qed.

Lemma control_character_is_not_retried_witness :
  exists st',
    fetch_with_backoff
      (World (fun _ => true)
             (fun n => match n with
                       | 0 => Responded 200
                                (inl "Invalid control character at: line 3 column 18 (char 52)")
                       | _ => Responded 200 (inr (VDict [("totalcount", VInt 0)]))
                       end))
      5 2 (State 0 0 [] [] ∅)
    = (VNone, BackoffState 0 2, st')
    /\ posts st' = 1 /\ slept st' = [].
Proof.
  destruct (control_character_is_not_retried
              (World (fun _ => true)
                     (fun n => match n with
                               | 0 => Responded 200
                                        (inl "Invalid control character at: line 3 column 18 (char 52)")
                               | _ => Responded 200 (inr (VDict [("totalcount", VInt 0)]))
                               end))
              (State 0 0 [] [] ∅)) as [_ H].
  destruct (H 0) as [(st' & Hf & Hp & Hs) _].
  - lia.
  - intros k Hk. lia.
  - reflexivity.
  - exists st'. split; [exact Hf|]. split; [exact Hp | exact Hs].
Defined.

End Retry.

(** ** Runs of the fetch stage *)

Section Runs.

Import Scrape.

Lemma attempt_once_posts (w : world) (m : nat) (b : backoff) (st : state) :
  posts (snd (attempt_once w m b st)) = S (posts st).
Proof.
  unfold attempt_once, on_exception, back_off.
  destruct (post w (posts st)) as [code [message|payload]|message];
    repeat match goal with
           | |- context [if ?c then _ else _] => destruct c
           end; reflexivity.
Qed.

Lemma retry_loop_S (w : world) (m rem : nat) (b : backoff) (st : state) :
  retry_loop w m (S rem) b st
  = match attempt_once w m b st with
    | (Return result, st') => (result, b, st')
    | (Continue b', st') => retry_loop w m rem b' st'
    end.
Proof. reflexivity. Qed.

(** With a positive [max_retries] the loop makes at least one request. *)
Lemma fetch_with_backoff_posts (w : world) (d0 : Z) (st : state)
    (result : value) (b : backoff) (st' : state) :
  fetch_with_backoff w 5 d0 st = (result, b, st') ->
  S (posts st) <= posts st' /\ gets st' = gets st /\ raw st' = raw st.
Proof.
  unfold fetch_with_backoff. intros H.
  pose proof (retry_loop_bound _ _ _ _ _ _ _ _ H) as (_ & Hg & Hr).
  split; [|split; assumption].
  rewrite retry_loop_S in H.
  pose proof (attempt_once_posts w 5 (BackoffState 0 d0) st) as Hp.
  destruct (attempt_once w 5 (BackoffState 0 d0) st) as [[v|b1] st1].
  - injection H as <- <- <-. cbn [snd] in Hp. lia.
  - apply retry_loop_bound in H. cbn [snd] in Hp. lia.
Qed.

(** One key: what a turn of the key loop that returns does. *)
Lemma fetch_one_returns (w : world) (p : params) (key : string)
    (acc : list value) (st st' : state) (results : list value) :
  fetch_one w p key acc st = (st', Some results) ->
  gets st' = S (gets st) /\ S (posts st) <= posts st'
  /\ ((results = acc /\ raw st' = raw st)
      \/ exists d n, results = acc ++ [VDict d]
           /\ Py.dict_get "postal_code" d = Some (VStr key)
           /\ results_len d = Some n
           /\ raw st' = <[result_file p (VDict d) := VDict d]> (raw st)).
Proof.
  unfold fetch_one.
  destruct (get_ok w _); [|discriminate]. cbn [negb].
  destruct (request_body key (doctor_type p) (last_name p)); [|discriminate].
  match goal with
  | |- context [fetch_with_backoff w 5 2 ?s] =>
      destruct (fetch_with_backoff w 5 2 s) as [[result b] st4] eqn:Hf
  end.
  apply fetch_with_backoff_posts in Hf as (Hp & Hg & Hr).
  cbn [gets posts raw count_get print sleep] in Hp, Hg, Hr.
  destruct (Py.truthy result) eqn:Htruthy.
  - destruct result as [| | | | | |d]; try discriminate.
    destruct (results_len (Py.dict_set "postal_code" (VStr key) d))
      as [n|] eqn:Hlen; [|discriminate].
    intros [= <- <-]. cbn [gets posts raw print write_file].
    split; [assumption|]. split; [assumption|].
    right. eexists _, n. split; [reflexivity|].
    split; [apply dict_get_set_eq|]. split; [exact Hlen|].
    unfold result_file, result_key. rewrite dict_get_set_eq.
    now rewrite Hr.
  - intros [= <- <-]. split; [assumption|]. split; [assumption|].
    left. now split.
Qed.

Lemma store_all_app (p : params) (a b : list value) (m : gmap string value) :
  store_all p (a ++ b) m = store_all p b (store_all p a m).
Proof. unfold store_all. apply fold_left_app. Qed.

(** The key loop: every key costs one [session.get] and at least one
    [session.post], whatever the raw store holds; the results are the
    successful payloads, each stored under the file of its key. *)
Lemma fetch_loop_returns (w : world) (p : params) (keys : list string) :
  forall acc st st' results,
    fetch_loop w p keys acc st = (st', Some results) ->
    exists new,
      results = acc ++ new
      /\ gets st' = gets st + List.length keys
      /\ posts st + List.length keys <= posts st'
      /\ raw st' = store_all p new (raw st)
      /\ Forall (fun result => In (result_key result) keys
                               /\ exists n, result_len result = Some n) new.
Proof.
  induction keys as [|key keys IH]; intros acc st st' results H.
  - cbn in H. injection H as <- <-. exists []. rewrite app_nil_r.
    cbn. repeat split; try lia. constructor.
  - cbn [fetch_loop] in H.
    destruct (fetch_one w p key acc st) as [st1 [acc1|]] eqn:Hone;
      [|discriminate].
    apply fetch_one_returns in Hone as (Hg & Hp & Hcase).
    apply IH in H as (new & -> & Hg' & Hp' & Hr' & Hall).
    cbn [List.length].
    destruct Hcase as [[-> Hr]|(d & n & -> & Hkey & Hlen & Hr)].
    + exists new. split; [reflexivity|].
      split; [lia|]. split; [lia|]. split; [congruence|].
      eapply Forall_impl; [exact Hall|]. intros r [Hr0 Hn]. split; [now right | exact Hn].
    + exists (VDict d :: new). rewrite <- app_assoc.
      split; [reflexivity|]. split; [lia|]. split; [lia|].
      split; [rewrite Hr', Hr; reflexivity|].
      constructor.
      * split; [left; unfold result_key; now rewrite Hkey | now exists n].
      * eapply Forall_impl; [exact Hall|]. intros r [Hr0 Hn]. split; [now right | exact Hn].
Qed.

Lemma store_all_lookup (p : params) (results : list value)
    (m : gmap string value) (file : string) :
  store_all p results m !! file
  = match last_saved p file results with
    | Some result => Some result
    | None => m !! file
    end.
Proof.
  induction results as [|r results IH] using rev_ind; [reflexivity|].
  rewrite store_all_app. cbn [store_all fold_left].
  unfold last_saved. rewrite List.filter_app. cbn [List.filter].
  destruct (String.eqb_spec (result_file p r) file) as [<-|Hne].
  - rewrite lookup_insert_eq. now rewrite last_snoc.
  - rewrite lookup_insert_ne by assumption. rewrite app_nil_r. exact IH.
Qed.

(** Saving the same results again changes nothing. *)
Lemma store_all_idempotent (p : params) (results : list value)
    (m : gmap string value) :
  store_all p results (store_all p results m) = store_all p results m.
Proof.
  apply map_eq. intros file. rewrite !store_all_lookup.
  now destruct (last_saved p file results).
Qed.

Lemma store_all_dom (p : params) (results : list value)
    (m : gmap string value) :
  dom (store_all p results m)
  = dom m ∪ list_to_set (List.map (result_file p) results).
Proof.
  revert m. induction results as [|r results IH]; intros m.
  - cbn. set_solver.
  - cbn [store_all fold_left List.map list_to_set].
    fold (store_all p results (<[result_file p r := r]> m)).
    rewrite IH, dom_insert_L. set_solver.
Qed.

Lemma total_doctors_returns (results : list value) :
  Forall (fun result => exists n, result_len result = Some n) results ->
  exists doctors, total_doctors results = Some doctors.
Proof.
  induction 1 as [|r results [n Hn] _ [total IH]]; [now exists 0|].
  cbn [total_doctors]. rewrite Hn, IH. now eexists.
Qed.

Lemma result_file_key (p : params) (a b : value) :
  result_key a = result_key b -> result_file p a = result_file p b.
Proof. unfold result_file. now intros ->. Qed.

(** C8, as the code has it: each key has one raw file name, so a second
    run over the same keys writes over the files of the first instead of
    adding files, and when it retrieves the same results the raw store
    and the aggregate are what they were.  The second run skips nothing:
    every key costs a [session.get] and at least one [session.post]
    again, whatever the raw store holds. *)
Theorem rerun_overwrites_and_refetches (w : world) (p : params)
    (keys : list string) (st1 st2 st3 : state) (results1 results2 : list value) :
  fetch_results_with_rate_limit w p keys st1 = (st2, Some results1) ->
  fetch_results_with_rate_limit w p keys st2 = (st3, Some results2) ->
  (gets st3 = gets st2 + List.length keys
   /\ posts st2 + List.length keys <= posts st3)
  /\ raw st3 = store_all p results2 (raw st2)
  /\ dom (raw st3)
     = dom (raw st2) ∪ list_to_set (List.map (result_file p) results2)
  /\ ((forall r, In r results2 ->
         exists r1, In r1 results1 /\ result_key r1 = result_key r) ->
      dom (raw st3) = dom (raw st2))
  /\ (results2 = results1 ->
      raw st3 = raw st2 /\ aggregate (raw st3) = aggregate (raw st2)).
Proof.
  unfold fetch_results_with_rate_limit. intros H1 H2.
  apply fetch_loop_returns in H1 as (new1 & E1 & _ & _ & Hr1 & _).
  apply fetch_loop_returns in H2 as (new2 & E2 & Hg2 & Hp2 & Hr2 & _).
  cbn [app] in E1, E2. subst new1 new2.
  split; [split; assumption|].
  split; [exact Hr2|].
  assert (Hdom : dom (raw st3)
            = dom (raw st2) ∪ list_to_set (List.map (result_file p) results2)).
  { rewrite Hr2. apply store_all_dom. }
  split; [exact Hdom|].
  split.
  - intros Hsub. rewrite Hdom. apply set_eq. intros file.
    rewrite elem_of_union, elem_of_list_to_set.
    split; [|now left].
    intros [Hin|Hin]; [assumption|].
    apply list_elem_of_In, in_map_iff in Hin as (r & <- & Hr).
    destruct (Hsub r Hr) as (r1 & Hr1in & Hkey).
    rewrite <- (result_file_key p r1 r Hkey), Hr1, store_all_dom.
    apply elem_of_union_r, elem_of_list_to_set, list_elem_of_In.
    now apply in_map.
  - intros ->.
    assert (raw st3 = raw st2) as ->; [|now split].
    rewrite Hr2, Hr1. apply store_all_idempotent.
Qed.

Lemma rerun_overwrites_and_refetches_witness :
  let w := World (fun _ => true)
             (fun _ => Responded 200 (inr (VDict [("totalcount", VInt 3);
                                                  ("results", VList [])]))) in
  let p := Params "Any" "Any" "data/FSA_LDU0" in
  let st2 := fst (fetch_results_with_rate_limit w p ["K1A"] (State 0 0 [] [] ∅)) in
  let st3 := fst (fetch_results_with_rate_limit w p ["K1A"] st2) in
  posts st2 + 1 <= posts st3 /\ raw st3 = raw st2.
Proof.
  intros w p st2 st3.
  destruct (rerun_overwrites_and_refetches w p ["K1A"] (State 0 0 [] [] ∅)
              st2 st3
              [VDict [("totalcount", VInt 3); ("results", VList []);
                      ("postal_code", VStr "K1A")]]
              [VDict [("totalcount", VInt 3); ("results", VList []);
                      ("postal_code", VStr "K1A")]])
    as ((_ & Hposts) & _ & _ & _ & Hsame).
  - vm_compute. reflexivity.
  - vm_compute. reflexivity.
  - split; [exact Hposts|]. now destruct (Hsame eq_refl).
Defined.

(** C8 as stated fails: with the file of ["K1A"] already in the raw store
    (Complete, [totalcount] 3), a second run requests the key again, and
    when the registry now answers [totalcount] 5 the file is overwritten
    and the aggregate differs from the one after the first run. *)
Lemma rerun_not_skipped_counterexample :
  let w := World (fun _ => true)
             (fun n => match n with
                       | 0 => Responded 200
                                (inr (VDict [("totalcount", VInt 3);
                                             ("results", VList [])]))
                       | _ => Responded 200
                                (inr (VDict [("totalcount", VInt 5);
                                             ("results", VList [])]))
                       end) in
  let p := Params "Any" "Any" "data/FSA_LDU0" in
  let st2 := fst (fetch_results_with_rate_limit w p ["K1A"] (State 0 0 [] [] ∅)) in
  let st3 := fst (fetch_results_with_rate_limit w p ["K1A"] st2) in
  raw st2 !! "data/FSA_LDU0/raw/K1A+Any+Any.json"
  = Some (VDict [("totalcount", VInt 3); ("results", VList []);
                 ("postal_code", VStr "K1A")])
  /\ posts st2 = 1 /\ posts st3 = 2
  /\ aggregate (raw st3) <> aggregate (raw st2).
Proof.
  cbv zeta. split; [vm_compute; reflexivity|].
  split; [vm_compute; reflexivity|].
  split; [vm_compute; reflexivity|].
  vm_compute. discriminate.
Qed.

(** C9, as the code has it: the summary of a run that returns is one
    line, fixed by the number of doctor records in the returned results
    and the number of input keys.  The results hold successful keys only,
    and a key whose five attempts all fail adds no result and no raw
    file, while the loop goes on; nothing in the summary tells such a key
    from the others. *)
Theorem summary_counts_only (w : world) (p : params) (keys : list string)
    (st st' : state) (results : list value) :
  run_simple_scrape w p keys st = (st', Some results) ->
  (exists doctors,
      total_doctors results = Some doctors
      /\ last (stdout st') = Some (summary_line doctors (List.length keys)))
  /\ Forall (fun result => In (result_key result) keys) results
  /\ raw st' = store_all p results (raw st)
  /\ (forall key rest acc st0,
        (forall k, k < 5 -> transient (post w (posts st0 + k)) = true) ->
        request_body key (doctor_type p) (last_name p) <> None ->
        get_ok w (gets st0) = true ->
        exists st1,
          fetch_one w p key acc st0 = (st1, Some acc)
          /\ raw st1 = raw st0
          /\ fetch_loop w p (key :: rest) acc st0
             = fetch_loop w p rest acc st1).
Proof.
  unfold run_simple_scrape, fetch_results_with_rate_limit. intros Hrun.
  destruct (fetch_loop w p keys [] st) as [st1 [results1|]] eqn:Hloop;
    [|discriminate].
  destruct (total_doctors results1) as [doctors|] eqn:Htotal; [|discriminate].
  injection Hrun as <- <-.
  apply fetch_loop_returns in Hloop as (new & E & _ & _ & Hr & Hall).
  cbn [app] in E. subst new.
  split; [exists doctors; split; [exact Htotal | cbn [stdout print]; apply last_snoc]|].
  split; [eapply Forall_impl; [exact Hall|]; now intros r [Hr0 _]|].
  split; [exact Hr|].
  intros key rest acc st0 Htr Hbody Hget.
  set (st3 := count_get
                (print ("Fetching results for postal code=" +:+ key
                        +:+ "; physician type=" +:+ doctor_type p
                        +:+ "; last name=" +:+ last_name p +:+ "...")
                   (sleep Jitter st0))).
  destruct (fetch_with_backoff_exhausted w 5 2 st3 Htr)
    as (st4 & H & _ & _ & Hraw & _).
  destruct (fetch_one_result w p key acc st0 _ _ _ Hbody Hget H) as [Hnone _].
  exists st4. rewrite (Hnone eq_refl).
  split; [reflexivity|]. split; [exact Hraw|].
  cbn [fetch_loop]. now rewrite (Hnone eq_refl).
Qed.

Lemma summary_counts_only_witness :
  let w := World (fun _ => true)
             (fun n => match n with
                       | 0 => Responded 200
                                (inr (VDict [("totalcount", VInt 1);
                                             ("results", VList [VDict [("cpsonumber", VStr "CPSO-1")]])]))
                       | _ => Responded 429 (inl "")
                       end) in
  let p := Params "Any" "Any" "data/FSA_LDU0" in
  last (stdout (fst (run_simple_scrape w p ["K1A"; "K1B"] (State 0 0 [] [] ∅))))
  = Some (summary_line 1 2).
Proof.
  intros w p.
  destruct (summary_counts_only w p ["K1A"; "K1B"] (State 0 0 [] [] ∅)
              (fst (run_simple_scrape w p ["K1A"; "K1B"] (State 0 0 [] [] ∅)))
              [VDict [("totalcount", VInt 1);
                      ("results", VList [VDict [("cpsonumber", VStr "CPSO-1")]]);
                      ("postal_code", VStr "K1A")]])
    as ((doctors & Htotal & Hlast) & _).
  - vm_compute. reflexivity.
  - injection Htotal as <-. exact Hlast.
Defined.

(** C9 as stated fails: over the keys ["K1A"; "K1B"], the run in which
    ["K1B"] fails (five 429 answers) and the run in which ["K1B"] succeeds
    with no record print the same summary line, and that line does not
    contain the failed key. *)
Lemma summary_omits_failed_key_counterexample :
  let found := VDict [("totalcount", VInt 1);
                      ("results", VList [VDict [("cpsonumber", VStr "CPSO-1")]])] in
  let empty := VDict [("totalcount", VInt 0); ("results", VList [])] in
  let failing := World (fun _ => true)
                   (fun n => match n with
                             | 0 => Responded 200 (inr found)
                             | _ => Responded 429 (inl "")
                             end) in
  let answering := World (fun _ => true)
                     (fun n => match n with
                               | 0 => Responded 200 (inr found)
                               | _ => Responded 200 (inr empty)
                               end) in
  let p := Params "Any" "Any" "data/FSA_LDU0" in
  let run1 := run_simple_scrape failing p ["K1A"; "K1B"] (State 0 0 [] [] ∅) in
  let run2 := run_simple_scrape answering p ["K1A"; "K1B"] (State 0 0 [] [] ∅) in
  List.map result_key (default [] (snd run1)) = ["K1A"]
  /\ List.map result_key (default [] (snd run2)) = ["K1A"; "K1B"]
  /\ last (stdout (fst run1)) = last (stdout (fst run2))
  /\ exists line, last (stdout (fst run1)) = Some line
                  /\ Str.contains "K1B" line = false.
Proof.
  cbv zeta. split; [vm_compute; reflexivity|].
  split; [vm_compute; reflexivity|].
  split; [vm_compute; reflexivity|].
  eexists. split; vm_compute; reflexivity.
Qed.

End Runs.

(** ** More on the key generator *)

Section GeneratorMore.

Import Permutations.

Lemma expand_flat_map (l : level) (keys : list string) :
  expand l keys = flat_map (fun key => List.map (child l key) (alphabet l)) keys.
Proof.
  destruct l;
    unfold expand, alphabet, child, generate_ldu1_permutations,
           generate_ldu2_permutations, generate_ldu3_permutations;
    reflexivity.
Qed.

Lemma alphabet_length (l : level) :
  List.length (alphabet l) = match l with Level2 => 20 | _ => 10 end.
Proof. destruct l; reflexivity. Qed.

(** X1: every key has the same number of children (10, 20, 10), in the
    order of the keys: the generator maps a concatenation of key lists to
    the concatenation of their permutations. *)
Theorem expand_counts_and_concatenates (l : level) (keys more : list string) :
  List.length (expand l keys)
  = match l with Level2 => 20 | _ => 10 end * List.length keys
  /\ expand l (keys ++ more) = expand l keys ++ expand l more
  /\ generate_and_save_permutations keys (level_map l)
     = Some (level_file l, expand l keys).
Proof.
  split; [|split].
  - rewrite expand_flat_map. induction keys as [|key keys IH]; [simpl; lia|].
    cbn [flat_map]. rewrite List.length_app, IH, length_map, alphabet_length.
    cbn [List.length]. lia.
  - rewrite !expand_flat_map. apply flat_map_app.
  - destruct l; reflexivity.
Qed.

Lemma chars_app (a b : string) : Str.chars (a +:+ b) = Str.chars a ++ Str.chars b.
Proof.
  induction a as [|c a IH]; [reflexivity|].
  change (Str.chars (String c a +:+ b)) with (c :: Str.chars (a +:+ b)).
  now rewrite IH.
Qed.

Lemma chars_inj (a b : string) : Str.chars a = Str.chars b -> a = b.
Proof.
  revert b. induction a as [|c a IH]; intros [|d b] H; try discriminate.
  - reflexivity.
  - injection H as -> H. f_equal. now apply IH.
Qed.

Lemma append_inv_tail (a b s : string) : a +:+ s = b +:+ s -> a = b.
Proof.
  intros H. apply chars_inj. apply (f_equal Str.chars) in H.
  rewrite !chars_app in H. now apply app_inv_tail in H.
Qed.

Lemma append_inv_head (s a b : string) : s +:+ a = s +:+ b -> a = b.
Proof.
  intros H. apply chars_inj. apply (f_equal Str.chars) in H.
  rewrite !chars_app in H. now apply app_inv_head in H.
Qed.

Lemma child_inj (l : level) (k1 k2 : string) (c1 c2 : ascii) :
  child l k1 c1 = child l k2 c2 -> k1 = k2 /\ c1 = c2.
Proof.
  intros H. apply (f_equal Str.chars) in H.
  assert (E : Str.chars k1 ++ [c1] = Str.chars k2 ++ [c2]
              \/ (Str.chars k1 ++ ["+"%char]) ++ [c1]
                 = (Str.chars k2 ++ ["+"%char]) ++ [c2]).
  { destruct l; cbn [child] in H; unfold char1 in H; rewrite !chars_app in H;
      [right | left | left]; exact H. }
  destruct E as [E|E].
  - apply app_inj_tail in E as [E ->]. split; [now apply chars_inj | reflexivity].
  - apply app_inj_tail in E as [E ->]. apply app_inj_tail in E as [E _].
    split; [now apply chars_inj | reflexivity].
Qed.

Lemma alphabet_NoDup (l : level) : NoDup (alphabet l).
Proof. destruct l; apply NoDup_ListNoDup; vm_compute; repeat constructor;
  cbn; intuition discriminate. Qed.

(** X2: distinct keys never produce the same child: a key list without
    repetition expands to a permutation list without repetition. *)
Theorem expand_NoDup (l : level) (keys : list string) :
  NoDup keys -> NoDup (expand l keys).
Proof.
  rewrite expand_flat_map. induction 1 as [|key keys Hnotin Hnodup IH].
  - constructor.
  - cbn [flat_map]. apply NoDup_app. split; [|split].
    + apply NoDup_fmap_2; [|apply alphabet_NoDup].
      intros c1 c2 Hc. now apply child_inj in Hc.
    + intros x Hx Hx'. apply list_elem_of_In in Hx, Hx'.
      apply in_map_iff in Hx as (c & <- & _).
      apply in_flat_map in Hx' as (key' & Hkey' & Hc').
      apply in_map_iff in Hc' as (c' & Hc' & _).
      apply child_inj in Hc' as [-> _].
      apply Hnotin. now apply list_elem_of_In.
    + exact IH.
Qed.

Lemma expand_NoDup_witness : NoDup (expand Level1 ["K1A"; "K1B"]).
Proof.
  apply expand_NoDup. apply NoDup_ListNoDup.
  repeat constructor; cbn; intuition discriminate.
Defined.

Lemma alphabet_not_plus (l : level) (c : ascii) :
  In c (alphabet l) -> c <> "+"%char.
Proof.
  destruct l; cbn [alphabet];
    [apply VALID_DIGITS_not_plus | apply VALID_LETTERS_not_plus
     | apply VALID_DIGITS_not_plus].
Qed.

Lemma child_actual_length (l : level) (key : string) (c : ascii) :
  In c (alphabet l) -> actual_length (child l key c) = S (actual_length key).
Proof.
  intros Hc. pose proof (alphabet_not_plus _ _ Hc) as Hne.
  destruct l; cbn [child]; rewrite !actual_length_app,
    (actual_length_char1 c Hne); try change (actual_length "+") with 0; lia.
Qed.

Lemma child_length (l : level) (key : string) (c : ascii) :
  String.length (child l key c)
  = String.length key + match l with Level1 => 2 | _ => 1 end.
Proof.
  destruct l; cbn [child]; rewrite !string_length_app; cbn; lia.
Qed.

Lemma in_expand (l : level) (keys : list string) (x : string) :
  In x (expand l keys) <->
  exists key c, In key keys /\ In c (alphabet l) /\ x = child l key c.
Proof.
  rewrite expand_flat_map, in_flat_map. split.
  - intros (key & Hkey & Hx). apply in_map_iff in Hx as (c & <- & Hc). eauto.
  - intros (key & c & Hkey & Hc & ->). exists key. split; [assumption|].
    now apply in_map.
Qed.

Lemma filter_all (A : Type) (f : A -> bool) (l : list A) :
  (forall x, In x l -> f x = true) -> List.filter f l = l.
Proof.
  induction l as [|x l IH]; intros H; [reflexivity|].
  cbn [List.filter]. rewrite (H x) by now left.
  f_equal. apply IH. intros y Hy. apply H. now right.
Qed.

(** X3: the output of one round is the input the next round expects: the
    children of the keys kept at a level all have the required length of
    the next level, so the next filter keeps every one of them. *)
Theorem children_pass_next_filter (l : level) (keys : list string) :
  (forall x, In x (expand l (List.filter (keeps l) keys)) ->
             actual_length x = S (required_length_map l))
  /\ List.filter (keeps Level2) (expand Level1 (List.filter (keeps Level1) keys))
     = expand Level1 (List.filter (keeps Level1) keys)
  /\ List.filter (keeps Level3) (expand Level2 (List.filter (keeps Level2) keys))
     = expand Level2 (List.filter (keeps Level2) keys).
Proof.
  assert (H : forall l' x, In x (expand l' (List.filter (keeps l') keys)) ->
                           actual_length x = S (required_length_map l')).
  { intros l' x Hx. apply in_expand in Hx as (key & c & Hkey & Hc & ->).
    apply filter_In in Hkey as [_ Hkeep]. apply Nat.eqb_eq in Hkeep.
    rewrite child_actual_length by assumption. now rewrite Hkeep. }
  split; [apply H|].
  split; apply filter_all; intros x Hx; apply H in Hx;
    unfold keeps; now rewrite Hx.
Qed.

Lemma children_pass_next_filter_witness :
  actual_length "K1A+0" = 4.
Proof.
  destruct (children_pass_next_filter Level1 ["K1A"; "K1A+0"]) as [H _].
  apply (H "K1A+0"). left. reflexivity.
Defined.

(** X4: the capped mask of the summary counts full postal codes only.  From
    a three-character prefix the rank-1 and rank-2 keys are rendered in 5
    and 6 characters and are never counted as capped, whatever their
    [totalcount]; a rank-3 key is rendered in 7 and is counted when its
    [totalcount] is -1. *)
Theorem capped_mask_counts_full_codes (fsa rank1 rank2 rank3 : string)
    (count : value) :
  String.length fsa = 3 ->
  In rank1 (expand Level1 [fsa]) ->
  In rank2 (expand Level2 [rank1]) ->
  In rank3 (expand Level3 [rank2]) ->
  Output.capped_mask (Output.SummaryRow (VStr fsa) count) = false
  /\ Output.capped_mask (Output.SummaryRow (VStr rank1) count) = false
  /\ Output.capped_mask (Output.SummaryRow (VStr rank2) count) = false
  /\ Output.capped_mask (Output.SummaryRow (VStr rank3) count)
     = Py.eq_int count (-1).
Proof.
  intros Hlen H1 H2 H3.
  apply in_expand in H1 as (k1 & c1 & [<-|[]] & _ & ->).
  apply in_expand in H2 as (k2 & c2 & [<-|[]] & _ & ->).
  apply in_expand in H3 as (k3 & c3 & [<-|[]] & _ & ->).
  unfold Output.capped_mask.
  cbn [Output.postal_code Output.totalcount Py.str].
  rewrite !child_length, Hlen. cbn [Nat.add Nat.eqb].
  rewrite !Bool.andb_false_r, Bool.andb_true_r. auto.
Qed.

Lemma capped_mask_counts_full_codes_witness :
  Output.capped_mask (Output.SummaryRow (VStr "K1A+0") (VInt (-1))) = false
  /\ Output.capped_mask (Output.SummaryRow (VStr "K1A+0A0") (VInt (-1))) = true.
Proof.
  destruct (capped_mask_counts_full_codes "K1A" "K1A+0" "K1A+0A" "K1A+0A0"
              (VInt (-1))) as (_ & H1 & _ & H3).
  - reflexivity.
  - vm_compute. left; reflexivity.
  - vm_compute. left; reflexivity.
  - vm_compute. left; reflexivity.
  - split; [exact H1 | exact H3].
Defined.

End GeneratorMore.

(** ** More on the loader and the main block *)

Section LoaderMore.

Import Permutations.

Lemma filter_by_length_None (n : nat) (items : list value) :
  filter_by_length n items = None <->
  exists item, In item items /\ is_str item = false.
Proof.
  induction items as [|item items IH].
  - split; [discriminate | intros (x & [] & _)].
  - destruct item as [| | | |s| |];
      try (split; [intros _; eexists; split; [left; reflexivity | reflexivity]
                  | reflexivity]).
    cbn [filter_by_length].
    destruct (filter_by_length n items) as [kept|].
    + split; [discriminate|]. intros (x & [<-|Hx] & Hs); [discriminate|].
      exfalso. assert (Some kept = None) by (apply IH; eauto). discriminate.
    + split; [|reflexivity]. intros _.
      destruct (proj1 IH eq_refl) as (x & Hx & Hs). exists x. split; [now right | exact Hs].
Qed.

Lemma generate_after_filter (l : level) (filtered : list string) :
  match filtered with
  | [] => Exit 1
  | _ =>
      match generate_and_save_permutations filtered (level_map l) with
      | Some (file, permutations) => Generated file permutations
      | None => Raised
      end
  end <> Raised.
Proof.
  destruct filtered; [discriminate|].
  rewrite generate_and_save_level. discriminate.
Qed.

(** X5: on a list of loaded items the round raises exactly when some item
    is not a string ([code.replace] does not exist on it): one [null]
    postal code among the keys stops the whole round, and a list of
    strings never raises. *)
Theorem refine_raises_on_non_string (l : level) (items : list value) :
  refine l (VList items) = Raised <->
  exists item, In item items /\ is_str item = false.
Proof.
  unfold refine. destruct items as [|item items].
  - cbn. split; [discriminate | intros (x & [] & _)].
  - cbn [Py.truthy negb Py.iter_items].
    rewrite <- filter_by_length_None with (n := required_length_map l).
    destruct (filter_by_length (required_length_map l) (item :: items))
      as [filtered|]; [|tauto].
    split; [|discriminate].
    intros H. now apply generate_after_filter in H.
Qed.

Lemma refine_raises_on_non_string_witness :
  refine Level1 (VList [VStr "K1A"; VNone]) = Raised.
Proof.
  apply refine_raises_on_non_string. exists VNone.
  split; [right; left; reflexivity | reflexivity].
Defined.

Lemma filter_none (A : Type) (f : A -> bool) (l : list A) :
  (forall x, In x l -> f x = false) -> List.filter f l = [].
Proof.
  induction l as [|x l IH]; intros H; [reflexivity|].
  cbn [List.filter]. rewrite (H x) by now left.
  apply IH. intros y Hy. apply H. now right.
Qed.

(** The loader on a list without capped dict. *)
Lemma load_json_no_capped (data : list value) :
  (forall x, In x data -> is_capped_item x = false) ->
  load_postal_codes_json data = Some data.
Proof.
  intros Hno. destruct data as [|item data].
  { reflexivity. }
  assert (Hitem : is_capped_item item = false) by (apply Hno; now left).
  set (full := item :: data).
  pose proof (weight_length full) as Hwl.
  assert (Hw : weight (drop 1 full) < weight full - 0).
  { unfold full. change (drop 1 (item :: data)) with data.
    change (weight (item :: data)) with (Py.vsize item + weight data).
    pose proof (vsize_pos item). lia. }
  assert (Hown : load_postal_codes_json full
                 = load_loop (weight full - 0) full 1 Aliased).
  { unfold load_postal_codes_json, load_fuel. fold (weight full).
    replace (S (weight full)) with (S (0 + (weight full - 0))) by lia.
    apply (load_loop_own_until full 0 0 [] _ item);
      [intros k x Hk; lia | reflexivity | exact Hitem]. }
  destruct (load_loop_aliased_total _ _ _ Hw) as [r Hr].
  rewrite Hown, Hr. f_equal.
  assert (Hflat : forall x, In x full -> is_capped_item x = true ->
                            is_capped_item (item_postal_code x) = false).
  { intros x Hx Hc. rewrite (Hno x Hx) in Hc. discriminate. }
  destruct (load_loop_aliased_inv
              (fun cur i => 1 <= i /\ cur = full ++ List.map item_postal_code
                 (List.filter is_capped_item (drop 1 (take i full))))
              (aliased_step_flat full 0 Hflat) _ _ _ _
              (aliased_from_start full 0) Hr)
    as (n & [_ Hn] & Hlen).
  rewrite filter_none in Hn.
  - cbn [List.map] in Hn. now rewrite app_nil_r in Hn.
  - intros x Hx. apply Hno. apply list_elem_of_In.
    apply list_elem_of_In in Hx.
    apply (subseteq_take n), (subseteq_drop 1). exact Hx.
Qed.

(** X6: a JSON list that holds no capped dict (the simple list of keys, or
    only complete results) is returned as it is, and for a list of keys the
    whole script is the length filter followed by the generator of the
    level. *)
Theorem load_json_simple_list (data : list value) (l : level)
    (keys : list string) :
  ((forall x, In x data -> is_capped_item x = false) ->
   load_postal_codes (JsonFile (VList data)) = VList data)
  /\ load_postal_codes (JsonFile (VList (List.map VStr keys)))
     = VList (List.map VStr keys)
  /\ main l (JsonFile (VList (List.map VStr keys)))
     = match List.filter (keeps l) keys with
       | [] => Exit 1
       | kept => Generated (level_file l) (expand l kept)
       end.
Proof.
  assert (Hdata : forall d, (forall x, In x d -> is_capped_item x = false) ->
                            load_postal_codes (JsonFile (VList d)) = VList d).
  { intros d Hno. cbn [load_postal_codes]. now rewrite load_json_no_capped. }
  assert (Hkeys : load_postal_codes (JsonFile (VList (List.map VStr keys)))
                  = VList (List.map VStr keys)).
  { apply Hdata. intros x Hx. apply in_map_iff in Hx as (k & <- & _). reflexivity. }
  split; [apply Hdata|]. split; [exact Hkeys|].
  unfold main. rewrite Hkeys. unfold refine.
  destruct keys as [|key keys]; [reflexivity|].
  cbn [Py.truthy List.map negb Py.iter_items].
  change (VStr key :: List.map VStr keys) with (List.map VStr (key :: keys)).
  rewrite filter_by_length_strings. fold (keeps l).
  destruct (List.filter (keeps l) (key :: keys)) as [|k kept]; [reflexivity|].
  now rewrite generate_and_save_level.
Qed.

Lemma load_json_simple_list_witness :
  load_postal_codes
    (JsonFile (VList [VDict [("postal_code", VStr "K1A"); ("totalcount", VInt 3)]]))
  = VList [VDict [("postal_code", VStr "K1A"); ("totalcount", VInt 3)]].
Proof.
  destruct (load_json_simple_list
              [VDict [("postal_code", VStr "K1A"); ("totalcount", VInt 3)]]
              Level1 []) as [H _].
  apply H. intros x [<-|[]]. reflexivity.
Defined.

Lemma column_In (name : string) (df : dataframe) (cells : list value) :
  column name df = Some cells -> In (name, cells) df.
Proof.
  induction df as [|[n c] df IH]; [discriminate|]. cbn [column].
  destruct (String.eqb_spec n name) as [->|Hne].
  - intros [= ->]. now left.
  - intros H. right. now apply IH.
Qed.

Lemma select_capped_sublist (postal_code totalcount : list value) :
  select_capped postal_code totalcount `sublist_of` postal_code.
Proof.
  unfold select_capped. revert totalcount.
  induction postal_code as [|pc pcs IH]; intros [|tc tcs]; cbn;
    try apply sublist_nil_l.
  destruct (Py.eq_int tc (-1)); cbn.
  - apply sublist_skip, IH.
  - apply sublist_cons, IH.
Qed.

(** X7: the CSV branch never invents a key: whatever the frame, the loaded
    list is a sub-list, in order, of one column of the frame (the
    [postal_code] column when there is one, the first column otherwise), an
    empty frame loads nothing, and without a [totalcount] column the
    [postal_code] column is loaded whole. *)
Theorem load_csv_sublist_of_column (df : dataframe) :
  (forall loaded, load_postal_codes_csv df = Some loaded ->
     exists name cells, In (name, cells) df /\ loaded `sublist_of` cells
       /\ (column "postal_code" df <> None -> name = "postal_code"))
  /\ (load_postal_codes_csv df = None <-> df = [])
  /\ (forall cells, column "postal_code" df = Some cells ->
        column "totalcount" df = None ->
        load_postal_codes (CsvFile df) = VList cells)
  /\ load_postal_codes (CsvFile []) = VList [].
Proof.
  split; [|split; [|split]].
  - intros loaded. unfold load_postal_codes_csv.
    destruct (column "postal_code" df) as [pcs|] eqn:Hpc.
    + pose proof (column_In _ _ _ Hpc) as Hin.
      destruct (column "totalcount" df) as [tcs|]; intros [= <-];
        exists "postal_code", pcs; (split; [assumption|]);
        (split; [|reflexivity]); [apply select_capped_sublist | reflexivity].
    + destruct df as [|[n cells] df']; [discriminate|]. intros [= <-].
      exists n, cells. split; [now left|]. split; [reflexivity | congruence].
  - unfold load_postal_codes_csv.
    destruct (column "postal_code" df) as [pcs|] eqn:Hpc.
    + destruct (column "totalcount" df); split; try discriminate;
        intros ->; discriminate.
    + destruct df as [|[n cells] df']; split; try reflexivity; discriminate.
  - intros cells Hpc Htc. cbn [load_postal_codes].
    unfold load_postal_codes_csv. now rewrite Hpc, Htc.
  - reflexivity.
Qed.

Lemma load_csv_sublist_of_column_witness :
  load_postal_codes (CsvFile [("postal_code", [VStr "K1A"; VStr "K1B"])])
  = VList [VStr "K1A"; VStr "K1B"].
Proof.
  destruct (load_csv_sublist_of_column
              [("postal_code", [VStr "K1A"; VStr "K1B"])]) as (_ & _ & H & _).
  apply H; reflexivity.
Defined.

End LoaderMore.

(** ** More on the output tables *)

Section OutputMore.

Import Output.

Lemma read_file_rows (acc : list summary_row * list value) (data : value) :
  read_file acc data
  = (fst acc ++ summary_rows_of data, snd acc ++ detail_rows_of data).
Proof.
  destruct acc as [summary details].
  destruct data as [| | | | | |d]; cbn [read_file summary_rows_of detail_rows_of fst snd];
    try now rewrite !app_nil_r.
  destruct (Py.dict_get "results" d) as [results|]; [|now rewrite app_nil_r].
  destruct (Py.truthy results); [|now rewrite app_nil_r].
  destruct (Py.iter_items results); [reflexivity | now rewrite app_nil_r].
Qed.

Lemma read_files_from (files : list value)
    (acc : list summary_row * list value) :
  fold_left read_file files acc
  = (fst acc ++ flat_map summary_rows_of files,
     snd acc ++ flat_map detail_rows_of files).
Proof.
  revert acc. induction files as [|data files IH]; intros acc.
  - cbn. rewrite !app_nil_r. now destruct acc.
  - cbn [fold_left flat_map]. rewrite IH, read_file_rows. cbn [fst snd].
    now rewrite <- !app_assoc.
Qed.

(** X8: the summary holds one row per file whose content is a JSON object,
    in the order of the files, also when the [results] of the file cannot
    be read as rows; the detail rows are the items of the [results] of
    those files, in order.  Files with any other content add nothing. *)
Theorem read_files_rows (files : list value) :
  read_files files
  = (flat_map summary_rows_of files, flat_map detail_rows_of files)
  /\ List.length (fst (read_files files))
     = List.length (List.filter is_dict files)
  /\ (forall d, summary_rows_of (VDict d) <> []).
Proof.
  assert (H : read_files files
              = (flat_map summary_rows_of files, flat_map detail_rows_of files)).
  { unfold read_files. now rewrite read_files_from. }
  split; [exact H|]. split; [|discriminate].
  rewrite H. cbn [fst]. clear H.
  induction files as [|data files IH]; [reflexivity|].
  cbn [flat_map List.filter]. rewrite List.length_app, IH.
  now destruct data.
Qed.

(** X9: a file without [postal_code] is summarised under the key
    ["unknown"], which has 7 characters: when its [totalcount] is -1 the
    summary counts it among the capped postal codes. *)
Theorem unknown_key_counts_as_capped (d : pydict)
    (acc : list summary_row * list value) :
  Py.dict_get "postal_code" d = None ->
  Py.dict_get "totalcount" d = Some (VInt (-1)) ->
  exists row,
    fst (read_file acc (VDict d)) = fst acc ++ [row]
    /\ postal_code row = VStr "unknown"
    /\ capped_mask row = true.
Proof.
  intros Hpc Htc. rewrite read_file_rows. cbn [fst summary_rows_of].
  eexists. split; [reflexivity|].
  unfold Py.get_default. rewrite Hpc, Htc. split; reflexivity.
Qed.

Lemma unknown_key_counts_as_capped_witness :
  exists row,
    fst (read_file ([], []) (VDict [("totalcount", VInt (-1))])) = [row]
    /\ capped_mask row = true.
Proof.
  destruct (unknown_key_counts_as_capped [("totalcount", VInt (-1))] ([], []))
    as (row & Hrow & _ & Hmask); [reflexivity | reflexivity |].
  exists row. split; [exact Hrow | exact Hmask].
Defined.

Lemma flat_map_nil (A B : Type) (f : A -> list B) (l : list A) :
  (forall x, In x l -> f x = []) -> flat_map f l = [].
Proof.
  induction l as [|x l IH]; intros H; [reflexivity|].
  cbn [flat_map]. rewrite (H x) by now left.
  apply IH. intros y Hy. apply H. now right.
Qed.

(** X10: when files were found but none holds a JSON object, the summary
    frame has no column and [process_data] raises instead of writing
    anything; with no file at all it returns before any output. *)
Theorem process_data_without_object (files : list value) :
  files <> [] ->
  (forall data, In data files -> is_dict data = false) ->
  process_data files = Raised /\ process_data [] = NoFiles.
Proof.
  intros Hne Hno. split; [|reflexivity].
  unfold process_data. destruct files as [|f files']; [contradiction|].
  unfold read_files. rewrite read_files_from. cbn [fst snd app].
  rewrite !flat_map_nil; [reflexivity | |];
    intros x Hx; apply Hno in Hx; now destruct x.
Qed.

Lemma process_data_without_object_witness :
  process_data [VList [VStr "K1A"]; VNone] = Raised.
Proof.
  destruct (process_data_without_object [VList [VStr "K1A"]; VNone]) as [H _].
  - discriminate.
  - intros data [<-|[<-|[]]]; reflexivity.
  - exact H.
Defined.

Lemma keep_digits_idempotent (s : string) :
  Str.keep_digits (Str.keep_digits s) = Str.keep_digits s.
Proof.
  induction s as [|c s IH]; [reflexivity|]. cbn [Str.keep_digits].
  destruct (Str.is_digit c) eqn:E; [|exact IH].
  cbn [Str.keep_digits]. now rewrite E, IH.
Qed.

Lemma keep_digits_of_chars (s : string) :
  Str.keep_digits s = Str.of_chars (List.filter Str.is_digit (Str.chars s)).
Proof. now rewrite <- keep_digits_chars, of_chars_chars. Qed.

Lemma layout_length (d : list ascii) :
  List.length d = 10 -> String.length (layout d) = 14.
Proof.
  intros H.
  destruct d as [|d0 [|d1 [|d2 [|d3 [|d4 [|d5 [|d6 [|d7 [|d8 [|d9 [|? ?]]]]]]]]]]];
    try discriminate.
  reflexivity.
Qed.

Lemma format_phone_layout (number : value) (s : string) :
  format_phone number = Some s ->
  List.length (List.filter Str.is_digit (Str.chars (Py.str number))) = 10
  /\ s = layout (List.filter Str.is_digit (Str.chars (Py.str number))).
Proof.
  intros Hs.
  assert (Hlen : String.length (Str.keep_digits (Py.str number)) = 10).
  { unfold format_phone in Hs.
    destruct (Nat.eqb_spec (String.length (Str.keep_digits (Py.str number))) 10);
      [assumption | discriminate]. }
  rewrite (format_phone_digits _ Hlen) in Hs. injection Hs as <-.
  split; [|reflexivity].
  now rewrite <- keep_digits_chars, chars_length.
Qed.

(** X11: a formatted number has 14 characters and its digits are exactly
    the digits of the input, in order; the result depends on the digits of
    the input only. *)
Theorem format_phone_keeps_digits (number other : value) (s : string) :
  (format_phone number = Some s ->
   String.length s = 14
   /\ Str.keep_digits s = Str.keep_digits (Py.str number))
  /\ (Str.keep_digits (Py.str number) = Str.keep_digits (Py.str other) ->
      format_phone number = format_phone other).
Proof.
  split.
  - intros Hs. apply format_phone_layout in Hs as [Hlen ->].
    split; [now apply layout_length|].
    rewrite (keep_digits_of_chars (layout _)), layout_digits;
      [symmetry; apply keep_digits_of_chars | exact Hlen
       | apply filter_is_digit_all].
  - intros E. unfold format_phone. now rewrite E.
Qed.

Lemma format_phone_keeps_digits_witness :
  String.length "(416) 555-1234" = 14
  /\ format_phone (VStr "416.555.1234") = format_phone (VInt 4165551234).
Proof.
  destruct (format_phone_keeps_digits (VStr "416.555.1234") (VInt 4165551234)
              "(416) 555-1234") as [H1 H2].
  split; [apply H1; reflexivity | apply H2; reflexivity].
Defined.

Lemma format_phone_fixed (number : value) (s : string) :
  format_phone number = Some s -> format_phone (VStr s) = Some s.
Proof.
  intros Hs. apply format_phone_layout in Hs as [Hlen ->].
  assert (Hd : List.filter Str.is_digit
                 (Str.chars (layout (List.filter Str.is_digit
                                       (Str.chars (Py.str number)))))
               = List.filter Str.is_digit (Str.chars (Py.str number))).
  { apply layout_digits; [assumption | apply filter_is_digit_all]. }
  rewrite format_phone_digits.
  - cbn [Py.str]. now rewrite Hd.
  - cbn [Py.str]. rewrite <- chars_length, keep_digits_chars, Hd. exact Hlen.
Qed.

Lemma format_phone_cell_idempotent (number : value) :
  format_phone_cell (format_phone_cell number) = format_phone_cell number.
Proof.
  unfold format_phone_cell at 2 3.
  destruct (format_phone number) as [s|] eqn:Hs; [|reflexivity].
  unfold format_phone_cell. now rewrite (format_phone_fixed _ _ Hs).
Qed.

Lemma dict_set_set (k : string) (v v' : value) (d : pydict) :
  Py.dict_set k v' (Py.dict_set k v d) = Py.dict_set k v' d.
Proof.
  induction d as [|[k0 v0] d IH]; cbn [Py.dict_set].
  - now rewrite String.eqb_refl.
  - destruct (String.eqb k0 k) eqn:E; cbn [Py.dict_set].
    + now rewrite String.eqb_refl.
    + now rewrite E, IH.
Qed.

(** X12: formatting a phone column is idempotent: applied to a table whose
    column is already formatted it changes nothing, and afterwards every
    row holds the key, with a formatted number or [None]. *)
Theorem apply_format_phone_idempotent (name : string) (rows : list pydict) :
  apply_format_phone name (apply_format_phone name rows)
  = apply_format_phone name rows
  /\ forall row, In row (apply_format_phone name rows) ->
       exists number,
         Py.dict_get name row = Some (format_phone_cell number).
Proof.
  unfold apply_format_phone. split.
  - rewrite List.map_map. apply List.map_ext. intros row.
    unfold cell at 1, Py.get_default. rewrite dict_get_set_eq.
    now rewrite format_phone_cell_idempotent, dict_set_set.
  - intros row Hrow. apply in_map_iff in Hrow as (r & <- & _).
    eexists. apply dict_get_set_eq.
Qed.

Lemma apply_format_phone_idempotent_witness :
  exists number,
    Py.dict_get "fax"
      (Py.dict_set "fax" (format_phone_cell (cell "fax" [("fax", VStr "x")]))
                   [("fax", VStr "x")])
    = Some (format_phone_cell number).
Proof.
  destruct (apply_format_phone_idempotent "fax" [[("fax", VStr "x")]]) as [_ H].
  apply H. left. reflexivity.
Defined.

Lemma drop_duplicates_from_sublist (name : string) (rows : list pydict) :
  forall seen kept,
    drop_duplicates_from name seen rows = Some kept ->
    kept `sublist_of` rows.
Proof.
  induction rows as [|row rows IH]; intros seen kept H.
  - injection H as <-. constructor.
  - cbn [drop_duplicates_from] in H.
    destruct (cell_key (cell name row)) as [k|]; [|discriminate].
    destruct (seen_key k seen).
    + apply sublist_cons. eapply IH; eassumption.
    + destruct (drop_duplicates_from name (k :: seen) rows) as [kept'|] eqn:E;
        [|discriminate].
      injection H as <-. apply sublist_skip. eapply IH; eassumption.
Qed.

Lemma drop_duplicates_from_again (name : string) (rows : list pydict) :
  forall seen kept,
    drop_duplicates_from name seen rows = Some kept ->
    drop_duplicates_from name seen kept = Some kept.
Proof.
  induction rows as [|row rows IH]; intros seen kept H.
  - now injection H as <-.
  - cbn [drop_duplicates_from] in H.
    destruct (cell_key (cell name row)) as [k|] eqn:Hk; [|discriminate].
    destruct (seen_key k seen) eqn:Hseen.
    + eapply IH; eassumption.
    + destruct (drop_duplicates_from name (k :: seen) rows) as [kept'|] eqn:E;
        [|discriminate].
      injection H as <-. cbn [drop_duplicates_from].
      now rewrite Hk, Hseen, (IH _ _ E).
Qed.

(** X13: [drop_duplicates] removes rows and does nothing else: what it keeps
    is a sub-list of the rows, in their order, and dropping duplicates again
    changes nothing. *)
Theorem drop_duplicates_sublist_idempotent (name : string)
    (rows kept : list pydict) :
  drop_duplicates name rows = Some kept ->
  kept `sublist_of` rows
  /\ List.length kept <= List.length rows
  /\ drop_duplicates name kept = Some kept.
Proof.
  unfold drop_duplicates. intros H.
  pose proof (drop_duplicates_from_sublist _ _ _ _ H) as Hsub.
  split; [exact Hsub|]. split; [now apply sublist_length|].
  eapply drop_duplicates_from_again; eassumption.
Qed.

Lemma drop_duplicates_sublist_idempotent_witness :
  drop_duplicates "cpsonumber" [[("cpsonumber", VStr "CPSO-1")]]
  = Some [[("cpsonumber", VStr "CPSO-1")]].
Proof.
  destruct (drop_duplicates_sublist_idempotent "cpsonumber"
              [[("cpsonumber", VStr "CPSO-1")]; [("cpsonumber", VStr "CPSO-1")]]
              [[("cpsonumber", VStr "CPSO-1")]]) as (_ & _ & H);
    [reflexivity | exact H].
Defined.

End OutputMore.

(** ** More on the fetch stage *)

Section ScrapeMore.

Import Scrape.

Lemma append_nil_r (s : string) : s +:+ "" = s.
Proof.
  induction s as [|c s IH]; [reflexivity | exact (f_equal (String c) IH)].
Qed.

Lemma contains_prefix (sub s : string) :
  String.prefix sub s = true -> Str.contains sub s = true.
Proof. intros H. destruct s; cbn [Str.contains]; now rewrite H. Qed.

Lemma contains_app_r (sub a s : string) :
  Str.contains sub s = true -> Str.contains sub (a +:+ s) = true.
Proof.
  intros H. induction a as [|c a IH]; [exact H|].
  change (String c a +:+ s) with (String c (a +:+ s)).
  cbn [Str.contains]. rewrite IH. apply Bool.orb_true_r.
Qed.

(** The part of a body that carries the key and the doctor type. *)
Lemma body_contains (before postal_code doctor_type tail : string) :
  Str.contains ("postalCode=" +:+ postal_code +:+ "&doctorType=" +:+ doctor_type)
    (before +:+ ("postalCode=" +:+ postal_code +:+ "&doctorType="
                 +:+ doctor_type +:+ tail)) = true.
Proof.
  apply contains_app_r.
  replace ("postalCode=" +:+ postal_code +:+ "&doctorType=" +:+ doctor_type +:+ tail)
    with (("postalCode=" +:+ postal_code +:+ "&doctorType=" +:+ doctor_type) +:+ tail).
  - apply contains_prefix, prefix_app.
  - now rewrite !append_assoc.
Qed.

Lemma base_body (postal_code doctor_type tail : string) :
  ("cbx-includeinactive=on&postalCode=" +:+ postal_code +:+ "&doctorType="
   +:+ doctor_type) +:+ tail
  = "cbx-includeinactive=on&"
    +:+ ("postalCode=" +:+ postal_code +:+ "&doctorType=" +:+ doctor_type +:+ tail).
Proof.
  change ("cbx-includeinactive=on&postalCode=" +:+ postal_code +:+ "&doctorType="
          +:+ doctor_type)
    with ("cbx-includeinactive=on&"
          +:+ ("postalCode=" +:+ postal_code +:+ "&doctorType=" +:+ doctor_type)).
  now rewrite !append_assoc.
Qed.

Lemma named_body (last_name postal_code doctor_type tail : string) :
  ("cbx-includeinactive=on&lastName=" +:+ last_name +:+ "&postalCode="
   +:+ postal_code +:+ "&doctorType=" +:+ doctor_type) +:+ tail
  = ("cbx-includeinactive=on&lastName=" +:+ last_name +:+ "&")
    +:+ ("postalCode=" +:+ postal_code +:+ "&doctorType=" +:+ doctor_type +:+ tail).
Proof.
  change ("&postalCode=" +:+ postal_code +:+ "&doctorType=" +:+ doctor_type)
    with ("&" +:+ ("postalCode=" +:+ postal_code +:+ "&doctorType=" +:+ doctor_type)).
  now rewrite !append_assoc.
Qed.

(** X14: the request body is defined exactly for the three doctor types
    the command line accepts, and always carries the key as [postalCode].
    With the doctor type ["Any"] the last name is ignored: the body is the
    same whatever name is given. *)
Theorem request_body_choices (postal_code doctor_type last_name : string) :
  (request_body postal_code doctor_type last_name <> None <->
   doctor_type = "Any" \/ doctor_type = "Family+Doctor"
   \/ doctor_type = "Specialist")
  /\ (forall body,
        request_body postal_code doctor_type last_name = Some body ->
        Str.contains ("postalCode=" +:+ postal_code +:+ "&doctorType="
                      +:+ doctor_type) body = true)
  /\ request_body postal_code "Any" last_name
     = request_body postal_code "Any" "Any".
Proof.
  split; [|split; [|reflexivity]].
  - unfold request_body.
    destruct (String.eqb_spec doctor_type "Any") as [->|H1];
      [split; [auto | discriminate]|].
    destruct (String.eqb_spec doctor_type "Family+Doctor") as [->|H2].
    { destruct (String.eqb last_name "Any"); cbn [andb negb];
        (split; [auto | discriminate]). }
    destruct (String.eqb_spec doctor_type "Specialist") as [->|H3].
    { destruct (String.eqb last_name "Any"); cbn [andb negb];
        (split; [auto | discriminate]). }
    cbn [andb]. split; [congruence | intros [?|[?|?]]; contradiction].
  - intros body. unfold request_body.
    pose proof (base_body postal_code doctor_type "") as Hb.
    rewrite append_nil_r in Hb.
    pose proof (named_body last_name postal_code doctor_type "") as Hn.
    rewrite append_nil_r in Hn.
    destruct (String.eqb doctor_type "Any").
    { intros [= <-]. rewrite Hb. apply body_contains. }
    destruct (String.eqb doctor_type "Family+Doctor" && String.eqb last_name "Any").
    { intros [= <-]. rewrite Hb. apply body_contains. }
    destruct (String.eqb doctor_type "Specialist" && String.eqb last_name "Any").
    { intros [= <-]. rewrite base_body. apply body_contains. }
    destruct (String.eqb doctor_type "Family+Doctor"
              && negb (String.eqb last_name "Any")).
    { intros [= <-]. rewrite Hn. apply body_contains. }
    destruct (String.eqb doctor_type "Specialist"
              && negb (String.eqb last_name "Any")); [|discriminate].
    intros [= <-]. rewrite named_body. apply body_contains.
Qed.

Lemma request_body_choices_witness :
  request_body "K1A" "Specialist" "Smith" <> None
  /\ Str.contains "postalCode=K1A&doctorType=Specialist"
       "cbx-includeinactive=on&lastName=Smith&postalCode=K1A&doctorType=Specialist&SpecialistType=Psychiatry"
     = true.
Proof.
  destruct (request_body_choices "K1A" "Specialist" "Smith") as (H1 & H2 & _).
  split.
  - apply H1. right. right. reflexivity.
  - apply (H2 _ eq_refl).
Defined.

Lemma prefix_slash_app (key tail : string) :
  String.prefix "/" key = false ->
  String.prefix "/" (key +:+ "+" +:+ tail) = false.
Proof.
  destruct key as [|c key]; [reflexivity|].
  intros H. change (String c key +:+ "+" +:+ tail)
    with (String c (key +:+ "+" +:+ tail)).
  cbn [String.prefix] in *. destruct (ascii_dec "/" c); [|reflexivity].
  now destruct key.
Qed.

Lemma path_join_inj (a b1 b2 : string) :
  String.prefix "/" b1 = false -> String.prefix "/" b2 = false ->
  path_join a b1 = path_join a b2 -> b1 = b2.
Proof.
  unfold path_join. intros -> ->.
  destruct (String.eqb a ""); [auto|].
  destruct (String.eqb _ "/"); intros H.
  - now apply append_inv_head in H.
  - apply append_inv_head in H. now apply append_inv_head in H.
Qed.

Lemma raw_filename_key (output_dir doctor_type last_name key1 key2 : string) :
  String.prefix "/" key1 = false -> String.prefix "/" key2 = false ->
  raw_filename output_dir key1 doctor_type last_name
  = raw_filename output_dir key2 doctor_type last_name ->
  key1 = key2.
Proof.
  unfold raw_filename. intros H1 H2 H.
  apply path_join_inj in H; try now apply prefix_slash_app.
  now apply append_inv_tail in H.
Qed.

(** X15: two keys never share a raw file: for keys that do not start with
    [/], equal file names mean equal keys.  A key that starts with [/] is
    an absolute path for [os.path.join], and its file is written outside
    the output directory. *)
Theorem raw_filename_injective (output_dir doctor_type last_name : string)
    (key1 key2 : string) :
  (String.prefix "/" key1 = false -> String.prefix "/" key2 = false ->
   raw_filename output_dir key1 doctor_type last_name
   = raw_filename output_dir key2 doctor_type last_name ->
   key1 = key2)
  /\ (String.prefix "/" key1 = true ->
      raw_filename output_dir key1 doctor_type last_name
      = key1 +:+ "+" +:+ doctor_type +:+ "+" +:+ last_name +:+ ".json").
Proof.
  split; [apply raw_filename_key|].
  unfold raw_filename.
  - intros H. unfold path_join at 1.
    assert (String.prefix "/" (key1 +:+ "+" +:+ doctor_type +:+ "+"
                               +:+ last_name +:+ ".json") = true) as ->;
      [|reflexivity].
    destruct key1 as [|c key1]; [discriminate|].
    change (String c key1 +:+ "+" +:+ doctor_type +:+ "+" +:+ last_name +:+ ".json")
      with (String c (key1 +:+ "+" +:+ doctor_type +:+ "+" +:+ last_name +:+ ".json")).
    cbn [String.prefix] in *. destruct (ascii_dec "/" c); [|discriminate].
    now destruct (key1 +:+ "+" +:+ doctor_type +:+ "+" +:+ last_name +:+ ".json").
Qed.

Lemma raw_filename_injective_witness :
  raw_filename "data" "/tmp/x" "Any" "Any" = "/tmp/x+Any+Any.json".
Proof.
  destruct (raw_filename_injective "data" "Any" "Any" "/tmp/x" "K1A") as [_ H].
  apply H. reflexivity.
Defined.

Lemma jitters_app (a b : list pause) : jitters (a ++ b) = jitters a + jitters b.
Proof.
  induction a as [|[|d] a IH]; cbn [app jitters]; [reflexivity | | exact IH].
  now rewrite IH.
Qed.

Lemma backoff_seconds_app (a b : list pause) :
  backoff_seconds (a ++ b) = (backoff_seconds a + backoff_seconds b)%Z.
Proof.
  induction a as [|[|d] a IH]; cbn [app backoff_seconds];
    [reflexivity | exact IH | rewrite IH; lia].
Qed.

Lemma backoff_delays_jitters (d : Z) (n : nat) : jitters (backoff_delays d n) = 0.
Proof. revert d. induction n as [|n IH]; intros d; [reflexivity | apply IH]. Qed.

Lemma backoff_delays_seconds (d : Z) (n : nat) :
  backoff_seconds (backoff_delays d n) = (d * (2 ^ Z.of_nat n - 1))%Z.
Proof.
  revert d. induction n as [|n IH]; intros d.
  - cbn. lia.
  - cbn [backoff_delays backoff_seconds]. rewrite IH.
    rewrite Nat2Z.inj_succ, Z.pow_succ_r by lia. lia.
Qed.

(** The pauses of the retry loop, whatever the registry answers: the first
    back-off delays, one per attempt that was retried. *)
Lemma retry_loop_pauses (w : world) (m : nat) (rem : nat) :
  forall b st result b' st',
    retry_loop w m rem b st = (result, b', st') ->
    exists k, k <= rem
      /\ slept st' = slept st ++ backoff_delays (delay b) k
      /\ posts st + k <= posts st'.
Proof.
  induction rem as [|rem IH]; intros b st result b' st' H.
  - cbn in H. injection H as <- <- <-. exists 0. cbn.
    rewrite app_nil_r. split; [lia|]. split; [reflexivity | lia].
  - rewrite retry_loop_S in H.
    destruct (transient (post w (posts st))) eqn:Ht.
    + destruct (attempt_once_transient w m b st Ht)
        as (st1 & H1 & Hp & _ & _ & Hs).
      rewrite H1 in H. apply IH in H as (k & Hk & Hs' & Hp').
      cbn [delay] in Hs'. exists (S k). split; [lia|].
      split; [|lia]. rewrite Hs', Hs. cbn [backoff_delays].
      now rewrite <- app_assoc.
    + exists 0. cbn [backoff_delays]. rewrite app_nil_r, Nat.add_0_r.
      split; [lia|].
      unfold attempt_once in H. unfold transient in Ht.
      destruct (post w (posts st)) as [code json|message].
      * destruct (code =? 200)%Z; [|discriminate].
        destruct json as [message|payload].
        -- unfold on_exception in H.
           destruct (Str.contains control_character_marker message);
             [|discriminate].
           injection H as <- <- <-. cbn. split; [reflexivity | lia].
        -- injection H as <- <- <-. cbn. split; [reflexivity | lia].
      * unfold on_exception in H.
        destruct (Str.contains control_character_marker message);
          [|discriminate].
        injection H as <- <- <-. cbn. split; [reflexivity | lia].
Qed.

Lemma backoff_seconds_bound (k : nat) :
  k <= 5 -> (0 <= backoff_seconds (backoff_delays 2 k) <= 62)%Z.
Proof.
  intros Hk. rewrite backoff_delays_seconds.
  assert (1 <= 2 ^ Z.of_nat k <= 2 ^ 5)%Z.
  { split; [apply (Z.pow_le_mono_r 2 0); lia | apply Z.pow_le_mono_r; lia]. }
  change (2 ^ 5)%Z with 32%Z in *. lia.
Qed.

(** X16: whatever the registry answers, the pauses of one
    [fetch_with_backoff] are the first [k] of the delays 2, 4, 8, 16, 32,
    one for each attempt that was retried: a key never waits more than 62
    seconds in back-off, and never without a request made before each
    pause. *)
Theorem fetch_with_backoff_pauses (w : world) (st : state) :
  exists k,
    k <= 5
    /\ slept (snd (fetch_with_backoff w 5 2 st))
       = slept st ++ backoff_delays 2 k
    /\ posts st + k <= posts (snd (fetch_with_backoff w 5 2 st))
    /\ (backoff_seconds (slept (snd (fetch_with_backoff w 5 2 st)))
        <= backoff_seconds (slept st) + 62)%Z.
Proof.
  destruct (fetch_with_backoff w 5 2 st) as [[result b] st'] eqn:H.
  unfold fetch_with_backoff in H.
  apply retry_loop_pauses in H as (k & Hk & Hs & Hp).
  cbn [delay snd] in *. exists k. split; [exact Hk|].
  split; [exact Hs|]. split; [exact Hp|].
  rewrite Hs, backoff_seconds_app.
  pose proof (backoff_seconds_bound k Hk). lia.
Qed.

(** One key, whatever happens: one [session.get], one random pause, at most
    five [session.post] and at most 62 seconds of back-off. *)
Lemma fetch_one_counts (w : world) (p : params) (key : string)
    (acc : list value) (st : state) :
  let st' := fst (fetch_one w p key acc st) in
  gets st' = S (gets st)
  /\ posts st <= posts st' <= posts st + 5
  /\ jitters (slept st') = S (jitters (slept st))
  /\ (backoff_seconds (slept st') <= backoff_seconds (slept st) + 62)%Z.
Proof.
  assert (Hj : jitters (slept st ++ [Jitter]) = S (jitters (slept st))).
  { rewrite jitters_app. cbn. lia. }
  assert (Hb : backoff_seconds (slept st ++ [Jitter]) = backoff_seconds (slept st)).
  { rewrite backoff_seconds_app. cbn. lia. }
  unfold fetch_one.
  destruct (get_ok w _); cbn [negb];
    [|cbn [fst gets posts slept count_get print sleep]; rewrite Hj, Hb; lia].
  destruct (request_body key (doctor_type p) (last_name p));
    [|cbn [fst gets posts slept count_get print sleep]; rewrite Hj, Hb; lia].
  match goal with
  | |- context [fetch_with_backoff w 5 2 ?s] =>
      set (st3 := s);
      pose proof (fetch_with_backoff_posts w 2 st3) as Hposts;
      destruct (fetch_with_backoff w 5 2 st3) as [[result b] st4] eqn:Hf
  end.
  destruct (Hposts _ _ _ eq_refl) as (Hp & Hg & _).
  pose proof Hf as Hf'. unfold fetch_with_backoff in Hf'.
  pose proof (retry_loop_bound _ _ _ _ _ _ _ _ Hf') as ((_ & Hle) & _ & _).
  apply retry_loop_pauses in Hf' as (k & Hk & Hs & _).
  cbn [delay] in Hs.
  assert (H4 : gets st4 = S (gets st)
               /\ posts st <= posts st4 <= posts st + 5
               /\ jitters (slept st4) = S (jitters (slept st))
               /\ (backoff_seconds (slept st4)
                   <= backoff_seconds (slept st) + 62)%Z).
  { unfold st3 in *. cbn [gets posts slept count_get print sleep] in *.
    split; [exact Hg|]. split; [lia|].
    rewrite Hs, jitters_app, backoff_seconds_app, backoff_delays_jitters, Hj, Hb.
    pose proof (backoff_seconds_bound k Hk). split; lia. }
  destruct (Py.truthy result); [|exact H4].
  destruct result; try exact H4.
  destruct (results_len _); exact H4.
Qed.

(** The key loop of a run that returns. *)
Lemma fetch_loop_counts (w : world) (p : params) (keys : list string) :
  forall acc st st' results,
    fetch_loop w p keys acc st = (st', Some results) ->
    exists new,
      results = acc ++ new
      /\ List.map result_key new `sublist_of` keys
      /\ posts st' <= posts st + 5 * List.length keys
      /\ jitters (slept st') = jitters (slept st) + List.length keys
      /\ (backoff_seconds (slept st')
          <= backoff_seconds (slept st) + 62 * Z.of_nat (List.length keys))%Z.
Proof.
  induction keys as [|key keys IH]; intros acc st st' results H.
  - cbn in H. injection H as <- <-. exists []. rewrite app_nil_r.
    cbn. repeat split; try lia. constructor.
  - cbn [fetch_loop] in H.
    pose proof (fetch_one_counts w p key acc st) as (_ & Hp & Hj & Hb).
    destruct (fetch_one w p key acc st) as [st1 [acc1|]] eqn:Hone;
      [|discriminate].
    cbn [fst] in Hp, Hj, Hb.
    apply fetch_one_returns in Hone as (_ & _ & Hcase).
    apply IH in H as (new & -> & Hsub & Hp' & Hj' & Hb').
    cbn [List.length].
    destruct Hcase as [[-> _]|(d & n & -> & Hkey & _ & _)].
    + exists new. split; [reflexivity|].
      split; [now apply sublist_cons|]. repeat split; lia.
    + exists (VDict d :: new). rewrite <- app_assoc.
      split; [reflexivity|]. split.
      * cbn [List.map]. unfold result_key at 1. rewrite Hkey.
        now apply sublist_skip.
      * repeat split; lia.
Qed.

(** X17: a run that returns has made one [session.get] and one random
    pause per key, between one and five [session.post] per key, and has
    slept at most 62 seconds of back-off per key; it returns at most one
    result per key, in the order of the keys. *)
Theorem run_request_budget (w : world) (p : params) (keys : list string)
    (st st' : state) (results : list value) :
  fetch_results_with_rate_limit w p keys st = (st', Some results) ->
  gets st' = gets st + List.length keys
  /\ posts st + List.length keys <= posts st' <= posts st + 5 * List.length keys
  /\ jitters (slept st') = jitters (slept st) + List.length keys
  /\ (backoff_seconds (slept st')
      <= backoff_seconds (slept st) + 62 * Z.of_nat (List.length keys))%Z
  /\ List.map result_key results `sublist_of` keys
  /\ List.length results <= List.length keys.
Proof.
  unfold fetch_results_with_rate_limit. intros H.
  pose proof (fetch_loop_returns _ _ _ _ _ _ _ H) as (new0 & _ & Hg & Hp & _).
  apply fetch_loop_counts in H as (new & E & Hsub & Hp' & Hj & Hb).
  cbn [app] in E. subst new.
  repeat split; try assumption.
  apply sublist_length in Hsub. now rewrite length_map in Hsub.
Qed.

Lemma run_request_budget_witness :
  let w := World (fun _ => true)
             (fun n => match n with
                       | 0 => Responded 429 (inl "")
                       | _ => Responded 200
                                (inr (VDict [("totalcount", VInt 0);
                                             ("results", VList [])]))
                       end) in
  let p := Params "Any" "Any" "data/FSA_LDU0" in
  let st' := fst (fetch_results_with_rate_limit w p ["K1A"; "K1B"]
                    (State 0 0 [] [] ∅)) in
  gets st' = 2 /\ jitters (slept st') = 2.
Proof.
  intros w p st'.
  destruct (run_request_budget w p ["K1A"; "K1B"] (State 0 0 [] [] ∅) st'
              [VDict [("totalcount", VInt 0); ("results", VList []);
                      ("postal_code", VStr "K1A")];
               VDict [("totalcount", VInt 0); ("results", VList []);
                      ("postal_code", VStr "K1B")]])
    as (Hg & _ & Hj & _).
  - vm_compute. reflexivity.
  - split; [exact Hg | exact Hj].
Defined.

Lemma filter_unique (p : params) (results : list value) (r : value) :
  NoDup (List.map (result_file p) results) -> In r results ->
  List.filter (fun x => String.eqb (result_file p x) (result_file p r)) results
  = [r].
Proof.
  induction results as [|x results IH]; intros Hnd Hin; [destruct Hin|].
  cbn [List.map] in Hnd. apply NoDup_cons in Hnd as [Hx Hnd].
  cbn [List.filter]. destruct Hin as [->|Hin].
  - rewrite String.eqb_refl. f_equal. apply filter_none.
    intros y Hy. apply String.eqb_neq. intros E. apply Hx.
    rewrite <- E. apply list_elem_of_In. now apply in_map.
  - destruct (String.eqb_spec (result_file p x) (result_file p r)) as [E|_].
    + exfalso. apply Hx. rewrite E. apply list_elem_of_In. now apply in_map.
    + now apply IH.
Qed.

Lemma store_all_size (p : params) (results : list value) :
  forall m : gmap string value,
    NoDup (List.map (result_file p) results) ->
    (forall r, In r results -> m !! result_file p r = None) ->
    size (store_all p results m) = size m + List.length results.
Proof.
  induction results as [|r results IH]; intros m Hnd Hfree.
  - cbn. lia.
  - cbn [List.map] in Hnd. apply NoDup_cons in Hnd as [Hr Hnd].
    cbn [store_all fold_left].
    fold (store_all p results (<[result_file p r := r]> m)).
    rewrite IH; [|assumption|].
    + rewrite map_size_insert_None by (apply Hfree; now left).
      cbn [List.length]. lia.
    + intros r' Hr'. rewrite lookup_insert_ne; [apply Hfree; now right|].
      intros E. apply Hr. rewrite E. apply list_elem_of_In. now apply in_map.
Qed.

(** X18: over keys without repetition (none starting with [/]), a run that
    returns leaves every returned result in the raw file of its key, and
    started on an empty store it leaves exactly one file per result. *)
Theorem run_stores_one_file_per_result (w : world) (p : params)
    (keys : list string) (st st' : state) (results : list value) :
  NoDup keys ->
  (forall key, In key keys -> String.prefix "/" key = false) ->
  fetch_results_with_rate_limit w p keys st = (st', Some results) ->
  (forall r, In r results -> raw st' !! result_file p r = Some r)
  /\ (raw st = ∅ -> size (raw st') = List.length results).
Proof.
  unfold fetch_results_with_rate_limit. intros Hnd Hslash H.
  pose proof (fetch_loop_returns _ _ _ _ _ _ _ H)
    as (new0 & E0 & _ & _ & Hraw & Hall).
  apply fetch_loop_counts in H as (new & E & Hsub & _).
  cbn [app] in E0, E. subst new0 new.
  assert (Hkeys : NoDup (List.map result_key results)).
  { eapply sublist_NoDup; eassumption. }
  assert (Hfiles : NoDup (List.map (result_file p) results)).
  { clear Hraw Hsub. induction results as [|r results IH]; [constructor|].
    cbn [List.map] in *. apply NoDup_cons in Hkeys as [Hr Hkeys].
    apply Forall_cons in Hall as [[Hrk _] Hall].
    apply NoDup_cons. split; [|now apply IH].
    intros Hin. apply Hr. apply list_elem_of_In in Hin.
    apply in_map_iff in Hin as (r' & Hfile & Hr').
    assert (In (result_key r') keys).
    { rewrite Forall_forall in Hall. apply list_elem_of_In in Hr'.
      now apply Hall. }
    unfold result_file in Hfile.
    apply raw_filename_key in Hfile; [|now apply Hslash..].
    rewrite <- Hfile. apply list_elem_of_In. now apply in_map. }
  split.
  - intros r Hr. rewrite Hraw, store_all_lookup. unfold last_saved.
    now rewrite (filter_unique p results r Hfiles Hr).
  - intros Hempty. rewrite Hraw, Hempty, store_all_size;
      [now rewrite map_size_empty | assumption |].
    intros r _. apply lookup_empty.
Qed.

Lemma run_stores_one_file_per_result_witness :
  let w := World (fun _ => true)
             (fun _ => Responded 200
                         (inr (VDict [("totalcount", VInt 0);
                                      ("results", VList [])]))) in
  let p := Params "Any" "Any" "data/FSA_LDU0" in
  size (raw (fst (fetch_results_with_rate_limit w p ["K1A"; "K1B"]
                    (State 0 0 [] [] ∅)))) = 2.
Proof.
  intros w p.
  destruct (run_stores_one_file_per_result w p ["K1A"; "K1B"]
              (State 0 0 [] [] ∅)
              (fst (fetch_results_with_rate_limit w p ["K1A"; "K1B"]
                      (State 0 0 [] [] ∅)))
              [VDict [("totalcount", VInt 0); ("results", VList []);
                      ("postal_code", VStr "K1A")];
               VDict [("totalcount", VInt 0); ("results", VList []);
                      ("postal_code", VStr "K1B")]])
    as [_ Hsize].
  - apply NoDup_ListNoDup. repeat constructor; cbn; intuition discriminate.
  - intros key [<-|[<-|[]]]; reflexivity.
  - vm_compute. reflexivity.
  - apply Hsize. reflexivity.
Defined.

End ScrapeMore.

(** ** The key file of a run and the seed keys *)

Section KeysMore.

Import KeyFile.

Lemma comprehension_of_keys (s : string) (items : list value) :
  comprehension (VStr s :: items) = None.
Proof. reflexivity. Qed.

(** X19: a JSON key file gives keys only when it is a list, which is
    returned as it is.  A JSON object never does: reading
    [item['postal_code']] on the keys of the object raises, and the loader
    returns the empty list, so the run stops with "No postal codes
    loaded". *)
Theorem key_file_json (data : value) :
  (forall items, data = VList items ->
     load_postal_codes_from_file (JsonFile data) = items)
  /\ (forall d, data = VDict d ->
        load_postal_codes_from_file (JsonFile data) = [])
  /\ ((forall items, data <> VList items) ->
      load_postal_codes_from_file (JsonFile data) = []).
Proof.
  assert (Hdict : forall d, load_postal_codes_from_file (JsonFile (VDict d)) = []).
  { intros d. cbn [load_postal_codes_from_file].
    destruct d as [|[k v] d]; [reflexivity|].
    destruct (Py.dict_get "postal_code" ((k, v) :: d)); reflexivity. }
  split; [now intros items ->|]. split; [intros d ->; apply Hdict|].
  intros Hnot. destruct data; try reflexivity; [|apply Hdict].
  exfalso. now apply (Hnot l).
Qed.

Lemma key_file_json_witness :
  load_postal_codes_from_file
    (JsonFile (VDict [("postal_code", VList [VStr "K1A"; VStr "K1B"])]))
  = [].
Proof.
  destruct (key_file_json (VDict [("postal_code", VList [VStr "K1A"; VStr "K1B"])]))
    as (_ & H & _).
  now apply (H [("postal_code", VList [VStr "K1A"; VStr "K1B"])]).
Defined.

Lemma lstrip_head (s : string) :
  lstrip s = EmptyString
  \/ exists c r, lstrip s = String c r /\ is_space c = false.
Proof.
  induction s as [|c s IH]; [now left|]. cbn [lstrip].
  destruct (is_space c) eqn:E; [exact IH | right; eauto].
Qed.

Lemma lstrip_fixed (c : ascii) (r : string) :
  is_space c = false -> lstrip (String c r) = String c r.
Proof. intros H. cbn [lstrip]. now rewrite H. Qed.

Lemma rstrip_chars_head (l : list ascii) (c : ascii) (r : list ascii) :
  rstrip_chars l = c :: r -> exists t, l = c :: t.
Proof.
  destruct l as [|x l]; [discriminate|]. cbn [rstrip_chars].
  destruct (rstrip_chars l).
  - destruct (is_space x); [discriminate|]. intros [= <- _]. eauto.
  - intros [= <- _]. eauto.
Qed.

Lemma rstrip_chars_idempotent (l : list ascii) :
  rstrip_chars (rstrip_chars l) = rstrip_chars l.
Proof.
  induction l as [|c l IH]; [reflexivity|]. cbn [rstrip_chars].
  destruct (rstrip_chars l) as [|x R] eqn:E.
  - destruct (is_space c) eqn:Hc; [reflexivity|].
    cbn [rstrip_chars]. now rewrite Hc.
  - change (rstrip_chars (c :: x :: R))
      with (match rstrip_chars (x :: R) with
            | [] => if is_space c then [] else [c]
            | r' => c :: r'
            end).
    now rewrite IH.
Qed.

Lemma chars_of_chars (l : list ascii) : Str.chars (Str.of_chars l) = l.
Proof. induction l as [|c l IH]; [reflexivity | cbn; now rewrite IH]. Qed.

Lemma strip_idempotent (s : string) : strip (strip s) = strip s.
Proof.
  unfold strip at 2 3.
  destruct (rstrip_chars (Str.chars (lstrip s))) as [|c R] eqn:E; [reflexivity|].
  assert (Hc : is_space c = false).
  { apply rstrip_chars_head in E as [t Ht].
    destruct (lstrip_head s) as [H0|(c' & r & Hs & Hsp)].
    - rewrite H0 in Ht. discriminate.
    - rewrite Hs in Ht. injection Ht as <- _. exact Hsp. }
  assert (Hl : lstrip (Str.of_chars (c :: R)) = Str.of_chars (c :: R)).
  { cbn [Str.of_chars]. now apply lstrip_fixed. }
  unfold strip. rewrite Hl, chars_of_chars, <- E.
  now rewrite rstrip_chars_idempotent.
Qed.

(** X20: from a text key file every loaded key is a line of the file with
    the white space at both ends removed, never empty and with no white
    space left at either end (stripping it again changes nothing); blank
    lines give no key, and the order of the lines is kept. *)
Theorem key_file_text (lines : list string) :
  load_postal_codes_from_file (TextFile lines)
  = List.map (fun line => VStr (strip line))
      (List.filter (fun line => negb (String.eqb (strip line) "")) lines)
  /\ (forall key, In key (load_postal_codes_from_file (TextFile lines)) ->
        exists line, In line lines /\ key = VStr (strip line)
          /\ strip line <> EmptyString
          /\ strip (strip line) = strip line)
  /\ List.length (load_postal_codes_from_file (TextFile lines))
     <= List.length lines.
Proof.
  split; [reflexivity|]. split.
  - intros key Hkey. cbn [load_postal_codes_from_file] in Hkey.
    apply in_map_iff in Hkey as (line & <- & Hline).
    apply filter_In in Hline as [Hline Hne]. cbn [Py.truthy] in Hne.
    exists line. split; [assumption|]. split; [reflexivity|].
    split; [|apply strip_idempotent].
    intros E. rewrite E in Hne. discriminate.
  - cbn [load_postal_codes_from_file]. rewrite length_map.
    apply List.filter_length_le.
Qed.

Lemma key_file_text_witness :
  exists line, In line ["  K1A  "; ""] /\ VStr "K1A" = VStr (strip line).
Proof.
  destruct (key_file_text ["  K1A  "; ""]) as (_ & H & _).
  destruct (H (VStr "K1A")) as (line & Hin & Hkey & _); [left; reflexivity|].
  exists line. split; [exact Hin | exact Hkey].
Defined.

Lemma fetch_pages_from (pages : list (option (list string))) :
  forall acc all_fsas,
    Seeds.fetch_forward_sortation_areas_with_delay pages acc = Some all_fsas ->
    exists tags found,
      pages = List.map Some tags
      /\ all_fsas = acc ++ found
      /\ List.concat found = flat_map Seeds.fetch_FSA tags
      /\ Forall (fun page => page <> []) found.
Proof.
  induction pages as [|[b_tags|] pages IH]; intros acc all_fsas H.
  - injection H as <-. exists [], []. rewrite app_nil_r. repeat split. constructor.
  - cbn [Seeds.fetch_forward_sortation_areas_with_delay] in H.
    destruct (Seeds.fetch_FSA b_tags) as [|x xs] eqn:E.
    + apply IH in H as (tags & found & -> & -> & Hc & Hne).
      exists (b_tags :: tags), found. cbn [List.map flat_map]. rewrite E.
      now repeat split.
    + apply IH in H as (tags & found & -> & -> & Hc & Hne).
      exists (b_tags :: tags), ((x :: xs) :: found).
      cbn [List.map flat_map List.concat]. rewrite E, Hc, <- app_assoc.
      repeat split. constructor; [discriminate | exact Hne].
  - discriminate.
Qed.

Lemma total_fsas_flat (all_fsas : list (list string)) :
  Seeds.total_fsas all_fsas = List.length (Seeds.all_fsas_flat all_fsas).
Proof.
  unfold Seeds.total_fsas, Seeds.all_fsas_flat.
  induction all_fsas as [|page rest IH]; [reflexivity|].
  change (list_sum (List.map (@List.length string) (page :: rest)))
    with (List.length page + list_sum (List.map (@List.length string) rest)).
  change (List.concat (page :: rest)) with (page ++ List.concat rest).
  rewrite List.length_app. f_equal. exact IH.
Qed.

Lemma looks_like_fsa_three (seed : string) :
  Seeds.looks_like_fsa seed = true -> String.length seed = 3 ->
  keeps Permutations.Level1 seed = true.
Proof.
  destruct seed as [|a [|b [|c [|d rest]]]]; try discriminate.
  cbn [Seeds.looks_like_fsa]. intros H _.
  apply andb_prop in H as [H Hc]. apply andb_prop in H as [Ha Hb].
  unfold keeps, Permutations.actual_length. cbn [Str.remove_char].
  assert (Hplus : forall x, Seeds.is_upper x = true \/ Str.is_digit x = true ->
                            Ascii.eqb x "+" = false).
  { intros x Hx. destruct (Ascii.eqb_spec x "+"%char) as [->|]; [|reflexivity].
    destruct Hx as [Hx|Hx]; vm_compute in Hx; discriminate. }
  rewrite !Hplus by auto. reflexivity.
Qed.

(** X21: when every page is fetched, the flat list of seeds is the
    concatenation, page by page, of the texts that start with a letter, a
    digit and a letter; pages without such a text are skipped without
    changing it, and [total_fsas] is its length.  A seed of exactly three
    characters is a key the first refinement level keeps. *)
Theorem seeds_are_fsa_texts (pages : list (option (list string)))
    (all_fsas : list (list string)) :
  Seeds.fetch_forward_sortation_areas_with_delay pages [] = Some all_fsas ->
  (exists tags, pages = List.map Some tags
     /\ Seeds.all_fsas_flat all_fsas = flat_map Seeds.fetch_FSA tags)
  /\ Seeds.total_fsas all_fsas = List.length (Seeds.all_fsas_flat all_fsas)
  /\ (forall page, In page all_fsas -> page <> [])
  /\ (forall seed, In seed (Seeds.all_fsas_flat all_fsas) ->
        Seeds.looks_like_fsa seed = true
        /\ (String.length seed = 3 -> keeps Permutations.Level1 seed = true)).
Proof.
  intros H. apply fetch_pages_from in H as (tags & found & -> & -> & Hc & Hne).
  cbn [app]. split; [exists tags; split; [reflexivity | exact Hc]|].
  split; [apply total_fsas_flat|].
  split; [intros page Hp; rewrite Forall_forall in Hne;
          apply Hne; now apply list_elem_of_In|].
  intros seed Hseed. unfold Seeds.all_fsas_flat in Hseed. rewrite Hc in Hseed.
  apply in_flat_map in Hseed as (b_tags & _ & Hseed).
  apply filter_In in Hseed as [_ Hlooks].
  split; [exact Hlooks | now apply looks_like_fsa_three].
Qed.

Lemma seeds_are_fsa_texts_witness :
  Seeds.looks_like_fsa "K1A" = true /\ keeps Permutations.Level1 "K1A" = true.
Proof.
  destruct (seeds_are_fsa_texts [Some ["Ottawa"]; Some ["K1A"; "K1B"]]
              [["K1A"; "K1B"]] eq_refl) as (_ & _ & _ & H).
  destruct (H "K1A") as [H1 H2]; [left; reflexivity|].
  split; [exact H1 | apply H2; reflexivity].
Defined.

End KeysMore.

(** ** A refinement round from the summary *)

Section RoundMore.

Import Permutations.

Lemma lower_char_idempotent (c : ascii) :
  Str.lower_char (Str.lower_char c) = Str.lower_char c.
Proof. destruct c as [[] [] [] [] [] [] [] []]; vm_compute; reflexivity. Qed.

Lemma lower_idempotent (s : string) : Str.lower (Str.lower s) = Str.lower s.
Proof.
  induction s as [|c s IH]; [reflexivity|]. cbn [Str.lower].
  now rewrite lower_char_idempotent, IH.
Qed.

(** X22: the level name is read without regard to case, and every name
    that is not [ldu1], [ldu2] or [ldu3] in some casing is refused with the
    [ValueError]; the names the main block passes are never refused. *)
Theorem level_name_case_insensitive (postal_codes : list string)
    (level_name : string) :
  generate_and_save_permutations postal_codes (Str.lower level_name)
  = generate_and_save_permutations postal_codes level_name
  /\ (generate_and_save_permutations postal_codes level_name = None <->
      Str.lower level_name <> "ldu1" /\ Str.lower level_name <> "ldu2"
      /\ Str.lower level_name <> "ldu3")
  /\ (forall l, generate_and_save_permutations postal_codes (level_map l)
                = Some (level_file l, expand l postal_codes)).
Proof.
  split; [|split].
  - unfold generate_and_save_permutations. now rewrite lower_idempotent.
  - unfold generate_and_save_permutations.
    destruct (String.eqb_spec (Str.lower level_name) "ldu1") as [E1|E1].
    { split; [discriminate | tauto]. }
    destruct (String.eqb_spec (Str.lower level_name) "ldu2") as [E2|E2].
    { split; [discriminate | tauto]. }
    destruct (String.eqb_spec (Str.lower level_name) "ldu3") as [E3|E3].
    { split; [discriminate | tauto]. }
    tauto.
  - intros l. destruct l; reflexivity.
Qed.



End RoundMore.

(** ** Aggregating an aggregate *)

Section DetailMore.

Import Output.

Lemma dict_set_same (k : string) (v : value) (d : pydict) :
  Py.dict_get k d = Some v -> Py.dict_set k v d = d.
Proof.
  induction d as [|[k0 v0] d IH]; [discriminate|].
  cbn [Py.dict_get Py.dict_set].
  destruct (String.eqb_spec k0 k) as [->|Hne].
  - now intros [= ->].
  - intros H. now rewrite IH.
Qed.

Lemma apply_format_phone_formatted (name : string) (rows : list pydict) :
  Forall (formatted_in name) (apply_format_phone name rows).
Proof.
  unfold apply_format_phone. apply Forall_forall. intros row Hrow.
  apply list_elem_of_In, in_map_iff in Hrow as (r & <- & _).
  eexists. split; [apply dict_get_set_eq | apply format_phone_cell_idempotent].
Qed.

Lemma apply_format_phone_keeps_formatted (name other : string)
    (rows : list pydict) :
  name <> other ->
  Forall (formatted_in other) rows ->
  Forall (formatted_in other) (apply_format_phone name rows).
Proof.
  intros Hne Hall. unfold apply_format_phone. apply Forall_forall.
  intros row Hrow. apply list_elem_of_In, in_map_iff in Hrow as (r & <- & Hr).
  rewrite Forall_forall in Hall.
  destruct (Hall r) as (v & Hv & Hfix); [now apply list_elem_of_In|].
  exists v. split; [|exact Hfix]. now rewrite dict_get_set_ne.
Qed.

Lemma apply_format_phone_fixed (name : string) (rows : list pydict) :
  Forall (formatted_in name) rows -> apply_format_phone name rows = rows.
Proof.
  unfold apply_format_phone. induction 1 as [|row rows (v & Hv & Hfix) _ IH];
    [reflexivity|].
  cbn [List.map]. rewrite IH. f_equal.
  unfold cell, Py.get_default. rewrite Hv, Hfix. now apply dict_set_same.
Qed.

Lemma in_columns_other (name other : string) (rows : list pydict) :
  name <> other ->
  in_columns other (apply_format_phone name rows) = in_columns other rows.
Proof.
  intros Hne. unfold in_columns, apply_format_phone.
  induction rows as [|row rows IH]; [reflexivity|].
  cbn [List.map existsb]. rewrite IH. f_equal.
  unfold has_key. now rewrite dict_get_set_ne.
Qed.

Lemma in_columns_sublist (name : string) (kept rows : list pydict) :
  kept `sublist_of` rows ->
  in_columns name rows = false -> in_columns name kept = false.
Proof.
  unfold in_columns. induction 1 as [|x l1 l2 _ IH|x l1 l2 _ IH];
    cbn [existsb]; [reflexivity | |].
  - intros H. apply Bool.orb_false_iff in H as [-> H]. now apply IH.
  - intros H. apply Bool.orb_false_iff in H as [_ H]. now apply IH.
Qed.

Lemma drop_duplicates_from_formatted (name : string) (rows : list pydict) :
  name <> "cpsonumber" ->
  forall seen,
    drop_duplicates_from "cpsonumber" seen rows = Some rows ->
    drop_duplicates_from "cpsonumber" seen (apply_format_phone name rows)
    = Some (apply_format_phone name rows).
Proof.
  intros Hne. unfold apply_format_phone.
  induction rows as [|row rows IH]; intros seen H; [reflexivity|].
  cbn [drop_duplicates_from List.map] in *.
  assert (E : cell "cpsonumber"
                (Py.dict_set name (format_phone_cell (cell name row)) row)
              = cell "cpsonumber" row).
  { unfold cell at 1 3, Py.get_default. now rewrite dict_get_set_ne. }
  rewrite E.
  destruct (cell_key (cell "cpsonumber" row)) as [k|]; [|discriminate].
  destruct (seen_key k seen).
  - exfalso. apply drop_duplicates_from_sublist in H.
    apply sublist_length in H. cbn in H. lia.
  - destruct (drop_duplicates_from "cpsonumber" (k :: seen) rows)
      as [kept|] eqn:Hk; [|discriminate].
    injection H as ->. now rewrite (IH _ Hk).
Qed.

(** X24: building the detail table is idempotent: built again from its own
    rows it gives the same table (no row is dropped and no cell changes
    the second time). *)
Theorem build_detail_idempotent (rows out : list pydict) :
  build_detail rows = Some out -> build_detail out = Some out.
Proof.
  unfold build_detail at 1. intros H.
  set (ph := in_columns "phonenumber" rows) in *.
  set (fx := in_columns "fax" rows) in *.
  set (format1 := fun df => if ph then apply_format_phone "phonenumber" df else df).
  set (format2 := fun df => if fx then apply_format_phone "fax" df else df).
  assert (Hkept : exists kept,
             kept `sublist_of` rows
             /\ out = format2 (format1 kept)
             /\ (in_columns "cpsonumber" kept = true ->
                 drop_duplicates_from "cpsonumber" [] kept = Some kept)).
  { destruct (in_columns "cpsonumber" rows) eqn:Hc.
    - destruct (drop_duplicates "cpsonumber" rows) as [kept|] eqn:Hdd;
        [|discriminate].
      injection H as <-. exists kept. unfold drop_duplicates in Hdd.
      split; [eapply drop_duplicates_from_sublist; eassumption|].
      split; [reflexivity|]. intros _.
      eapply drop_duplicates_from_again; eassumption.
    - injection H as <-. exists rows. split; [reflexivity|].
      split; [reflexivity|]. congruence. }
  destruct Hkept as (kept & Hsub & -> & Hdd).
  assert (Hcps : forall df, in_columns "cpsonumber" (format2 (format1 df))
                            = in_columns "cpsonumber" df).
  { intros df. unfold format2, format1.
    destruct fx, ph; rewrite ?in_columns_other by discriminate; reflexivity. }
  assert (Hdedup : (if in_columns "cpsonumber" (format2 (format1 kept))
                    then drop_duplicates "cpsonumber" (format2 (format1 kept))
                    else Some (format2 (format1 kept)))
                   = Some (format2 (format1 kept))).
  { rewrite Hcps. destruct (in_columns "cpsonumber" kept) eqn:Hc; [|reflexivity].
    specialize (Hdd eq_refl). unfold drop_duplicates, format2, format1.
    destruct fx, ph;
      repeat (apply drop_duplicates_from_formatted; [discriminate|]);
      exact Hdd. }
  unfold build_detail. rewrite Hdedup.
  assert (H1 : (if in_columns "phonenumber" (format2 (format1 kept))
                then apply_format_phone "phonenumber" (format2 (format1 kept))
                else format2 (format1 kept))
               = format2 (format1 kept)).
  { destruct (in_columns "phonenumber" (format2 (format1 kept))) eqn:E;
      [|reflexivity].
    apply apply_format_phone_fixed. unfold format2, format1 in *.
    destruct ph eqn:Hph.
    - destruct fx; [apply apply_format_phone_keeps_formatted; [discriminate|]|];
        apply apply_format_phone_formatted.
    - exfalso.
      assert (in_columns "phonenumber" kept = false) as Hk
        by (eapply in_columns_sublist; eassumption).
      destruct fx; rewrite ?in_columns_other in E by discriminate; congruence. }
  rewrite H1.
  assert (H2 : (if in_columns "fax" (format2 (format1 kept))
                then apply_format_phone "fax" (format2 (format1 kept))
                else format2 (format1 kept))
               = format2 (format1 kept)).
  { destruct (in_columns "fax" (format2 (format1 kept))) eqn:E; [|reflexivity].
    apply apply_format_phone_fixed. unfold format2, format1 in *.
    destruct fx eqn:Hfx.
    - apply apply_format_phone_formatted.
    - exfalso.
      assert (in_columns "fax" kept = false) as Hk
        by (eapply in_columns_sublist; eassumption).
      destruct ph; rewrite ?in_columns_other in E by discriminate; congruence. }
  now rewrite H2.
Qed.

Lemma build_detail_idempotent_witness :
  build_detail [[("cpsonumber", VStr "CPSO-1"); ("phonenumber", VStr "(416) 555-1234")]]
  = Some [[("cpsonumber", VStr "CPSO-1"); ("phonenumber", VStr "(416) 555-1234")]].
Proof.
  apply (build_detail_idempotent
           [[("cpsonumber", VStr "CPSO-1"); ("phonenumber", VStr "416-555-1234")];
            [("cpsonumber", VStr "CPSO-1"); ("phonenumber", VStr "1")]]).
  reflexivity.
Defined.

End DetailMore.
